(** * The article delivery pipeline of Discord.RSS (structs/DeliveryPipeline.js)

    A shallow embedding of the class [DeliveryPipeline].  The pipeline is
    asynchronous JavaScript: every method is modelled as a computation in a
    state-and-exception monad.  The state holds what the pipeline itself
    mutates (its [queues] registry and the [ArticleQueue] objects it
    allocates), the state of the outside world, and the trace of every call
    the pipeline makes to one of its collaborators (message rendering, rate
    limiter, REST producer, delivery-record model, Discord channel, logger).
    The collaborators live in other files; they are taken as parameters. *)

From stdpp Require Import base strings list gmap.


(** ** A few JavaScript primitives *)

Module JS.

(** [hay.includes(needle)] *)
Fixpoint includes (needle hay : string) : bool :=
  String.prefix needle hay ||
  match hay with
  | EmptyString => false
  | String _ hay' => includes needle hay'
  end.

(** A string-valued property that may be [undefined]. *)
Definition prop := option string.

(** Interpolation [`${v}`] of such a property in a template literal. *)
Definition tpl (v : prop) : string :=
  match v with
  | Some s => s
  | None => "undefined"
  end.

(** Truthiness of such a property: [undefined] and [''] are falsy. *)
Definition truthy (v : prop) : bool :=
  match v with
  | Some s => negb (String.eqb s "")
  | None => false
  end.

(** [a || b] *)
Definition or (a b : prop) : prop := if truthy a then a else b.

(** [s || d] for a string [s] and a default [d] *)
Definition or_default (s d : string) : string :=
  if String.eqb s "" then d else s.

(** The value of an error's [code] property. *)
Inductive code :=
| CodeUndefined
| CodeNumber (n : Z)
| CodeString (s : string).

(** [c === n] for a number literal [n] *)
Definition code_is (c : code) (n : Z) : bool :=
  match c with
  | CodeNumber m => Z.eqb m n
  | _ => false
  end.

(** An [Error] object, as far as the pipeline looks at it: an object with a
    string for its [message] (possibly empty) and maybe a [code]. *)
Record Error := mkError { message : string; code_of : code }.

(** [new Error(msg)] *)
Definition new_Error (msg : string) : Error := mkError msg CodeUndefined.

(** The error raised by a property access or a call on [undefined] or
    [null].  Only the fact that it is thrown matters below. *)
Definition TypeError (what : string) : Error :=
  mkError ("Cannot read property '" +:+ what +:+ "' of undefined") CodeUndefined.

(** What a [catch] can receive, since anything can be thrown or be the
    reason of a rejection: an [Error]; a value that has no [message]
    property (a string, a number, a plain object), given here by its
    printed form; or [null] or [undefined].  Values whose [message] is set
    to something other than a string are left out. *)
Inductive Thrown :=
| Err (e : Error)
| Value (shown : string)
| Nullish.

End JS.

Coercion JS.Err : JS.Error >-> JS.Thrown.

(** ** The types of the collaborators' objects

    [World] is the state of everything outside the pipeline (the Discord
    client and its channel cache, the database, the rate limiter's counters,
    the REST service).  [ArticleMessage] is the rendered message built by
    [ArticleMessage.create]; [Payload] is one API payload of it;
    [WebhookSettings] is the [webhook] object of a feed. *)

Class Sig := {
  World : Type;
  ArticleMessage : Type;
  Payload : Type;
  WebhookSettings : Type
}.

Inductive Outcome (A : Type) :=
| Ok (a : A)
| Throw (e : JS.Thrown).
Arguments Ok {A} a.
Arguments Throw {A} e.

Definition is_Ok {A} (r : Outcome A) : bool :=
  match r with Ok _ => true | Throw _ => false end.

Record Article := {
  article_id : string;            (* article._id *)
  link : JS.prop;
  title : JS.prop
}.

(** A text channel of the client's cache. *)
Record Channel := { channel_id : string }.

(** What [articleMessage.getMedium] resolves to: a channel or a webhook. *)
Inductive Medium :=
| MediumChannel (c : Channel)
| MediumWebhook (id token : string).

Definition instanceof_Webhook (m : Medium) : bool :=
  match m with MediumWebhook _ _ => true | MediumChannel _ => false end.

(** The data handed to [new DeliveryRecord.Model]. *)
Record DeliveryRecordData := {
  articleID : string;
  feedURL : string;
  channel : string;
  delivered : bool;
  comment : string
}.

(** The third argument of [restProducer.enqueue]. *)
Record RequestMeta := {
  meta_articleID : string;
  meta_feedURL : string;
  meta_channel : string
}.

(** One call of [restProducer.enqueue]. *)
Record Request := {
  req_url : string;
  req_method : string;
  req_body : string;
  req_meta : RequestMeta
}.

Inductive Level := Debug | Info | Warn | LError.

(** The object a log call merges into the line. *)
Inductive Bindings :=
| NoBindings
| BindError (e : JS.Thrown)
| BindData (d : DeliveryRecordData).

Record LogEntry := { level : Level; bindings : Bindings; msg : string }.

Definition level_eqb (a b : Level) : bool :=
  match a, b with
  | Debug, Debug | Info, Info | Warn, Warn | LError, LError => true
  | _, _ => false
  end.

Section Model.

Context `{Sig}.

Record FeedObject := {
  feed_id : string;             (* feedObject._id *)
  url : string;
  feed_channel : string;        (* feedObject.channel *)
  webhook : option WebhookSettings
}.

Record NewArticle := { article : Article; feedObject : FeedObject }.

(** [this.restProducer], when there is one.  Its [enqueue] is an
    asynchronous method: it fails by rejecting. *)
Record RESTProducer := {
  enqueue : Request → World → Outcome unit * World
}.

(** The fields of a pipeline that never change after construction. *)
Record DeliveryPipeline := {
  logFiltered : bool;
  restProducer : option RESTProducer
}.

(** The collaborators.  An asynchronous call may change the world and may
    reject. *)
Record Externals := {
  (* this.bot.channels.cache.get(id) *)
  cache_get : World → string → option Channel;
  (* ArticleMessage.create(feedObject, article, debug) *)
  ArticleMessage_create :
    FeedObject → Article → bool → World → Outcome ArticleMessage * World;
  passedFilters : ArticleMessage → bool;
  (* articleMessage.getMedium(bot) *)
  getMedium : ArticleMessage → World → Outcome (option Medium) * World;
  createAPIPayloads :
    ArticleMessage → option WebhookSettings → Outcome (list Payload);
  JSON_stringify : Payload → string;
  (* ArticleRateLimiter.assertWithinLimits(articleMessage) *)
  assertWithinLimits : ArticleMessage → World → Outcome unit * World;
  (* Feed.isMongoDatabase *)
  isMongoDatabase : bool;
  (* new DeliveryRecord.Model(data), then record.save() *)
  save : DeliveryRecordData → World → Outcome unit * World;
  (* channel.send(content) *)
  send : Channel → string → World → Outcome unit * World;
  (* which of several rejections reaches the caller of Promise.all: the
     one that settles first in time, given by its index among them *)
  settles_first : World → list JS.Thrown → nat
}.

(** Every call that leaves the pipeline, in the order it is made. *)
Inductive Event :=
| EvCreate (f : FeedObject) (a : Article) (debug : bool)
| EvAssertWithinLimits (am : ArticleMessage)
| EvGetMedium (am : ArticleMessage)
| EvRequest (r : Request)
| EvSave (d : DeliveryRecordData) (ok : bool)
| EvSend (c : Channel) (content : string)
| EvLog (l : LogEntry).

(** An [ArticleQueue] object holds the (article, rendered message) pairs
    waiting for one channel, oldest first.  The pipeline refers to such an
    object by reference: its index in the heap of the state. *)
Abbreviation ArticleQueue := (list (NewArticle * ArticleMessage)) (only parsing).
Abbreviation QueueRef := nat (only parsing).

Record State := {
  world : World;
  queues : gmap string QueueRef;         (* this.queues *)
  heap : list ArticleQueue;              (* the ArticleQueue objects *)
  trace : list Event
}.

(** *** The monad of asynchronous methods *)

Definition M (A : Type) : Type := State → Outcome A * State.

#[export] Instance M_ret : MRet M := λ A a s, (Ok a, s).

#[export] Instance M_bind : MBind M := λ A B f m s,
  match m s with
  | (Ok a, s') => f a s'
  | (Throw e, s') => (Throw e, s')
  end.

Definition throw {A} (e : JS.Thrown) : M A := λ s, (Throw e, s).

(** [try { m } catch (err) { h err }] *)
Definition try_catch {A} (m : M A) (h : JS.Thrown → M A) : M A := λ s,
  match m s with
  | (Ok a, s') => (Ok a, s')
  | (Throw e, s') => h e s'
  end.

Definition emit (ev : Event) (s : State) : State :=
  {| world := world s; queues := queues s; heap := heap s;
     trace := trace s ++ [ev] |}.

Definition set_world (w : World) (s : State) : State :=
  {| world := w; queues := queues s; heap := heap s; trace := trace s |}.

(** A call to a collaborator: the call is traced, then it acts on the
    world. *)
Definition call {A} (ev : Event) (f : World → Outcome A * World) : M A :=
  λ s, let '(r, w) := f (world s) in (r, set_world w (emit ev s)).

Definition log (lv : Level) (b : Bindings) (text : string) : M unit :=
  λ s, (Ok tt, emit (EvLog {| level := lv; bindings := b; msg := text |}) s).

(** [Promise.all(ps)]: the promises are all started, in order, before any
    of them is awaited, so each of them runs whatever the others do.  When
    none rejects, the result fulfils with all the values.  Otherwise it
    rejects with the rejection that settles first in time; which one that
    is lies outside the pipeline, so it is left to [first], which gives its
    index among the rejections taken in the order of the list. *)
Fixpoint settle {A} (ps : list (M A)) (s : State)
    : list (Outcome A) * State :=
  match ps with
  | [] => ([], s)
  | p :: ps' =>
      let '(r, s1) := p s in
      let '(rs, s2) := settle ps' s1 in
      (r :: rs, s2)
  end.

Definition fulfilled {A} (rs : list (Outcome A)) : list A :=
  omap (λ r, match r with Ok a => Some a | Throw _ => None end) rs.

Definition rejected {A} (rs : list (Outcome A)) : list JS.Thrown :=
  omap (λ r, match r with Ok _ => None | Throw e => Some e end) rs.

Definition Promise_all {A} (first : World → list JS.Thrown → nat)
    (ps : list (M A)) : M (list A) := λ s,
  let '(rs, s') := settle ps s in
  match rejected rs with
  | [] => (Ok (fulfilled rs), s')
  | e :: es => (Throw (nth (first (world s') (e :: es)) (e :: es) e), s')
  end.

(** *** The methods of [DeliveryPipeline] *)

Variable X : Externals.
Variable this : DeliveryPipeline.

(** A synchronous call that may throw. *)
Definition sync {A} (r : Outcome A) : M A := λ s, (r, s).

Definition apiRoute (medium : Medium) : string :=
  match medium with
  | MediumWebhook id token => "/webhooks/" +:+ id +:+ "/" +:+ token
  | MediumChannel c => "/channels/" +:+ channel_id c +:+ "/messages"
  end.

(** [this.restProducer.enqueue(url, options, meta)] *)
Definition restProducer_enqueue (r : Request) : M unit :=
  match restProducer this with
  | Some producer => call (EvRequest r) (enqueue producer r)
  | None => throw (JS.TypeError "enqueue")
  end.

Definition apiRequest (newArticle : NewArticle) (medium : Medium)
    (apiPayload : Payload) : Request :=
  {| req_url := "https://discord.com/api" +:+ apiRoute medium;
     req_method := "POST";
     req_body := JSON_stringify X apiPayload;
     req_meta :=
       {| meta_articleID := article_id (article newArticle);
          meta_feedURL := url (feedObject newArticle);
          meta_channel := feed_channel (feedObject newArticle) |} |}.

Definition sendToService (newArticle : NewArticle)
    (articleMessage : ArticleMessage) : M (list unit) :=
  medium ← call (EvGetMedium articleMessage) (getMedium X articleMessage);
  match medium with
  | None => throw (JS.new_Error "Missing medium to send article via service")
  | Some medium =>
      apiPayloads ← sync (createAPIPayloads X articleMessage
        (if instanceof_Webhook medium
         then webhook (feedObject newArticle) else None));
      Promise_all (settles_first X)
        (map (λ apiPayload,
                restProducer_enqueue (apiRequest newArticle medium apiPayload))
             apiPayloads)
  end.

Definition getChannel (newArticle : NewArticle) : M (option Channel) := λ s,
  (Ok (cache_get X (world s) (feed_channel (feedObject newArticle))), s).

Definition createArticleMessage (newArticle : NewArticle) (debug : bool)
    : M ArticleMessage :=
  call (EvCreate (feedObject newArticle) (article newArticle) debug)
       (ArticleMessage_create X (feedObject newArticle) (article newArticle)
          debug).

(** [new DeliveryRecord.Model(data)] followed by [record.save()]; the
    trace keeps whether the record was stored. *)
Definition record_save (data : DeliveryRecordData) : M unit := λ s,
  let '(r, w) := save X data (world s) in
  (r, set_world w (emit (EvSave data (is_Ok r)) s)).

Definition failureData (newArticle : NewArticle) (errorMessage : string)
    : DeliveryRecordData :=
  {| articleID := article_id (article newArticle);
     feedURL := url (feedObject newArticle);
     channel := feed_channel (feedObject newArticle);
     delivered := false;
     comment := errorMessage |}.

Definition recordFailure (newArticle : NewArticle) (errorMessage : string)
    : M unit :=
  if negb (isMongoDatabase X) then mret tt
  else
    let data := failureData newArticle errorMessage in
    log Debug (BindData data) "Recording delivery record failure";;
    try_catch (record_save data)
      (λ err, log LError (BindError err)
         ("Failed to record article " +:+ article_id (article newArticle)
          +:+ " delivery failure in channel "
          +:+ feed_channel (feedObject newArticle)
          +:+ " (error: " +:+ errorMessage +:+ ")")).

Definition filterBlockData (newArticle : NewArticle) : DeliveryRecordData :=
  {| articleID := article_id (article newArticle);
     feedURL := url (feedObject newArticle);
     channel := feed_channel (feedObject newArticle);
     delivered := false;
     comment := "Blocked by filters" |}.

Definition recordFilterBlock (newArticle : NewArticle) : M unit :=
  if negb (isMongoDatabase X) then mret tt
  else
    let data := filterBlockData newArticle in
    log Debug (BindData data) "Recording delivery record filter block";;
    try_catch (record_save data)
      (λ err, log LError (BindError err)
         ("Failed to record article " +:+ article_id (article newArticle)
          +:+ " delivery blocked by filters in channel "
          +:+ feed_channel (feedObject newArticle))).

Definition getQueueForChannel (channelID : string) : M QueueRef := λ s,
  match queues s !! channelID with
  | None =>
      let newQueue := length (heap s) in
      (Ok newQueue,
       {| world := world s;
          queues := <[channelID := newQueue]> (queues s);
          heap := heap s ++ [[]];
          trace := trace s |})
  | Some queue => (Ok queue, s)
  end.

(** Modelled from the spec: [queue.enqueue(newArticle, articleMessage)] of
    [ArticleQueue] (structs/ArticleQueue.js) appends the pair to the
    first-in first-out buffer of the queue.  A reference handed out by
    [getQueueForChannel] always points into the heap. *)
Definition queue_enqueue (queue : QueueRef) (newArticle : NewArticle)
    (articleMessage : ArticleMessage) : M unit := λ s,
  (Ok tt,
   {| world := world s;
      queues := queues s;
      heap := alter (λ q, q ++ [(newArticle, articleMessage)]) queue (heap s);
      trace := trace s |}).

Definition sendNewArticle (newArticle : NewArticle)
    (articleMessage : ArticleMessage) : M unit :=
  call (EvAssertWithinLimits articleMessage)
       (assertWithinLimits X articleMessage);;
  match restProducer this with
  | Some _ =>
      sendToService newArticle articleMessage;;
      log Debug NoBindings
        ("Sent article " +:+ article_id (article newArticle) +:+ " of feed "
         +:+ feed_id (feedObject newArticle) +:+ " to service")
  | None =>
      let channelID := feed_channel (feedObject newArticle) in
      queue ← getQueueForChannel channelID;
      queue_enqueue queue newArticle articleMessage;;
      log Debug NoBindings
        ("Enqueued article " +:+ article_id (article newArticle)
         +:+ " of feed " +:+ feed_id (feedObject newArticle)
         +:+ " within client")
  end.

Definition handleArticleBlocked (newArticle : NewArticle) : M unit :=
  (if logFiltered this
   then log Info NoBindings
          ("'" +:+ JS.tpl (JS.or (link (article newArticle))
                                 (title (article newArticle)))
           +:+ "' did not pass filters and was not sent")
   else mret tt);;
  recordFilterBlock newArticle.

Definition failureNotice (newArticle : NewArticle) (err : JS.Error) : string :=
  "Failed to send article <" +:+ JS.tpl (link (article newArticle))
  +:+ ">.```" +:+ JS.message err +:+ "```".

Definition failureWarning (newArticle : NewArticle) : string :=
  "Failed to deliver article " +:+ article_id (article newArticle)
  +:+ " (" +:+ JS.tpl (link (article newArticle)) +:+ ") of feed "
  +:+ feed_id (feedObject newArticle).

(** What lines 101 and 102 do depends on what was caught.  On [null] or
    [undefined], reading [err.message] throws before anything is recorded;
    on a value without a [message], the comment falls back to 'N/A' and the
    call of [includes] on [undefined] throws after the record. *)
Definition handleArticleFailure (newArticle : NewArticle) (err : JS.Thrown)
    : M unit :=
  channel ← getChannel newArticle;
  match err with
  | JS.Nullish => throw (JS.TypeError "message")
  | JS.Value _ =>
      recordFailure newArticle "N/A";;
      throw (JS.TypeError "includes")
  | JS.Err err =>
      recordFailure newArticle (JS.or_default (JS.message err) "N/A");;
      if JS.includes "limited" (JS.message err)
      then log Debug (BindError err) "Ignoring rate-limited article"
      else
        log Warn (BindError err) (failureWarning newArticle);;
        if JS.code_is (JS.code_of err) 50035
        then
          match channel with
          | Some channel =>
              call (EvSend channel (failureNotice newArticle err))
                   (send X channel (failureNotice newArticle err))
          | None => throw (JS.TypeError "send")
          end
        else mret tt
  end.

(** The body of the [try] block of [deliver]. *)
Definition deliver_try (newArticle : NewArticle) (debug : bool) : M unit :=
  articleMessage ← createArticleMessage newArticle debug;
  if negb (passedFilters X articleMessage)
  then handleArticleBlocked newArticle
  else
    log Debug NoBindings
      ("Preparing to send new article " +:+ article_id (article newArticle)
       +:+ " of feed " +:+ feed_id (feedObject newArticle)
       +:+ " to service");;
    sendNewArticle newArticle articleMessage.

Definition deliver (newArticle : NewArticle) (debug : bool) : M unit :=
  channel ← getChannel newArticle;
  match channel with
  | None => mret tt
  | Some _ =>
      try_catch (deliver_try newArticle debug)
                (λ err, handleArticleFailure newArticle err)
  end.

End Model.

(** ** Reading a trace *)

Section Views.

Context `{Sig}.

Abbreviation ArticleQueue := (list (NewArticle * ArticleMessage)) (only parsing).

(** The delivery records that were stored. *)
Definition saved (tr : list Event) : list DeliveryRecordData :=
  omap (λ ev, match ev with EvSave d true => Some d | _ => None end) tr.

(** The delivery records the pipeline tried to store. *)
Definition save_attempts (tr : list Event) : list DeliveryRecordData :=
  omap (λ ev, match ev with EvSave d _ => Some d | _ => None end) tr.

(** The requests handed to the REST producer. *)
Definition requests (tr : list Event) : list Request :=
  omap (λ ev, match ev with EvRequest r => Some r | _ => None end) tr.

(** The messages sent directly to a channel. *)
Definition notifications (tr : list Event) : list (Channel * string) :=
  omap (λ ev, match ev with EvSend c t => Some (c, t) | _ => None end) tr.

(** The calls to the rate limiter. *)
Definition limiter_calls (tr : list Event) : list ArticleMessage :=
  omap (λ ev, match ev with EvAssertWithinLimits am => Some am | _ => None end)
       tr.

(** The calls to [ArticleMessage.create]. *)
Definition renderings (tr : list Event) : list (FeedObject * Article) :=
  omap (λ ev, match ev with EvCreate f a _ => Some (f, a) | _ => None end) tr.

(** The log lines of one severity. *)
Definition logged (lv : Level) (tr : list Event) : list LogEntry :=
  omap (λ ev, match ev with
              | EvLog l => if level_eqb (level l) lv then Some l else None
              | _ => None
              end) tr.

(** All the log lines, of every severity. *)
Definition log_lines (tr : list Event) : list LogEntry :=
  omap (λ ev, match ev with EvLog l => Some l | _ => None end) tr.

(** The lines [recordFailure] logs when it records [errorMessage] in world
    [w]: none without a database; otherwise a debug line and, when the
    write throws, an error line that binds the error of the write and
    quotes [errorMessage]. *)
Definition recordFailure_lines (X : Externals) (newArticle : NewArticle)
    (errorMessage : string) (w : World) : list LogEntry :=
  if isMongoDatabase X
  then
    {| level := Debug;
       bindings := BindData (failureData newArticle errorMessage);
       msg := "Recording delivery record failure" |} ::
    match fst (save X (failureData newArticle errorMessage) w) with
    | Ok _ => []
    | Throw e =>
        [{| level := LError; bindings := BindError e;
            msg := "Failed to record article "
                   +:+ article_id (article newArticle)
                   +:+ " delivery failure in channel "
                   +:+ feed_channel (feedObject newArticle)
                   +:+ " (error: " +:+ errorMessage +:+ ")" |}]
    end
  else [].

(** The entries waiting in the queue of a channel; none if the channel has
    no queue yet. *)
Definition queue_entries (s : State) (channelID : string) : ArticleQueue :=
  match queues s !! channelID with
  | Some queue => default [] (heap s !! queue)
  | None => []
  end.

(** Every registered queue is an object of the heap, and no two channels
    share one. *)
Definition registry_wf (s : State) : Prop :=
  map_Forall (λ _ queue, queue < length (heap s)) (queues s) ∧
  ∀ c1 c2 queue,
    queues s !! c1 = Some queue → queues s !! c2 = Some queue → c1 = c2.

(** What [recordFailure] and [recordFilterBlock] try to store, and what
    ends up stored, when the write happens in world [w]. *)
Definition attempted (X : Externals) (data : DeliveryRecordData)
    : list DeliveryRecordData :=
  if isMongoDatabase X then [data] else [].

Definition stored (X : Externals) (data : DeliveryRecordData) (w : World)
    : list DeliveryRecordData :=
  if isMongoDatabase X && is_Ok (fst (save X data w)) then [data] else [].

(** The world one recording leaves when it starts in world [w]. *)
Definition world_after_record (X : Externals) (data : DeliveryRecordData)
    (w : World) : World :=
  if isMongoDatabase X then snd (save X data w) else w.

(** A stretch of trace in which no record is written and no message is
    sent to a channel. *)
Definition silent (delta : list Event) : Prop :=
  save_attempts delta = [] ∧ saved delta = [] ∧ notifications delta = [].

(** The outcomes of the requests of one article, each issued in the world
    the previous one left. *)
Fixpoint enqueue_outcomes (producer : RESTProducer) (rs : list Request)
    (w : World) : list (Outcome unit) :=
  match rs with
  | [] => []
  | r :: rs' =>
      let '(o, w') := enqueue producer r w in
      o :: enqueue_outcomes producer rs' w'
  end.

End Views.

(** ** A concrete installation, for running the model

    The world is a clock that counts the asynchronous calls made so far; the
    channel of the feed stays in the cache until the clock reaches
    [cache_until]. *)

Module Scenario.

#[local] Instance sig : Sig := {|
  World := nat;
  ArticleMessage := bool * list string;   (* filter verdict, payloads *)
  Payload := string;
  WebhookSettings := string
|}.

Record Knobs := {
  mongo : bool;
  limiter : Outcome unit;
  medium : option Medium;
  enqueued : Outcome unit;
  written : Outcome unit;
  notified : Outcome unit;
  cache_until : nat
}.

Definition tick {A} (r : Outcome A) (w : nat) : Outcome A * nat := (r, S w).

Definition externals (rendered : bool * list string) (k : Knobs) : Externals := {|
  cache_get w id :=
    if w <? cache_until k then Some {| channel_id := id |} else None;
  ArticleMessage_create _ _ _ := tick (Ok rendered);
  passedFilters am := fst am;
  getMedium _ := tick (Ok (medium k));
  createAPIPayloads am _ := Ok (snd am);
  JSON_stringify p := p;
  assertWithinLimits _ := tick (limiter k);
  isMongoDatabase := mongo k;
  save _ := tick (written k);
  send _ _ := tick (notified k);
  settles_first _ _ := 0
|}.

Definition producer (k : Knobs) : RESTProducer :=
  {| enqueue _ := tick (enqueued k) |}.

Definition direct (k : Knobs) : DeliveryPipeline :=
  {| logFiltered := true; restProducer := Some (producer k) |}.

Definition queued : DeliveryPipeline :=
  {| logFiltered := true; restProducer := None |}.

Definition article1 : Article :=
  {| article_id := "a1"; link := Some "https://example.com/1";
     title := Some "First" |}.

Definition feed1 : FeedObject :=
  {| feed_id := "f1"; url := "https://example.com/rss";
     feed_channel := "c1"; webhook := None |}.

Definition newArticle1 : NewArticle :=
  {| article := article1; feedObject := feed1 |}.

Definition start : State :=
  {| world := 0; queues := ∅; heap := []; trace := [] |}.

(** Everything works: persistence on, all calls succeed. *)
Definition fine : Knobs :=
  {| mongo := true; limiter := Ok tt;
     medium := Some (MediumChannel {| channel_id := "c1" |});
     enqueued := Ok tt; written := Ok tt; notified := Ok tt;
     cache_until := 100 |}.

Definition passing : bool * list string := (true, ["{}"; "{}"]).
Definition blocked : bool * list string := (false, ["{}"]).

Definition rateLimited : JS.Error := JS.new_Error "Rate limited article".

Definition invalidForm : JS.Error :=
  JS.mkError "Invalid Form Body" (JS.CodeNumber 50035).

Definition limitedForm : JS.Error :=
  JS.mkError "Invalid Form Body: content is limited to 2000 characters"
    (JS.CodeNumber 50035).

Definition databaseDown : JS.Error := JS.new_Error "connection refused".

Definition missingPermissions : JS.Error :=
  JS.mkError "Missing Permissions" (JS.CodeNumber 50013).

Definition with_limiter (r : Outcome unit) (k : Knobs) : Knobs :=
  {| mongo := mongo k; limiter := r; medium := medium k;
     enqueued := enqueued k; written := written k; notified := notified k;
     cache_until := cache_until k |}.

Definition with_mongo (b : bool) (k : Knobs) : Knobs :=
  {| mongo := b; limiter := limiter k; medium := medium k;
     enqueued := enqueued k; written := written k; notified := notified k;
     cache_until := cache_until k |}.

Definition with_medium (m : option Medium) (k : Knobs) : Knobs :=
  {| mongo := mongo k; limiter := limiter k; medium := m;
     enqueued := enqueued k; written := written k; notified := notified k;
     cache_until := cache_until k |}.

Definition with_enqueued (r : Outcome unit) (k : Knobs) : Knobs :=
  {| mongo := mongo k; limiter := limiter k; medium := medium k;
     enqueued := r; written := written k; notified := notified k;
     cache_until := cache_until k |}.

Definition with_written (r : Outcome unit) (k : Knobs) : Knobs :=
  {| mongo := mongo k; limiter := limiter k; medium := medium k;
     enqueued := enqueued k; written := r; notified := notified k;
     cache_until := cache_until k |}.

Definition with_notified (r : Outcome unit) (k : Knobs) : Knobs :=
  {| mongo := mongo k; limiter := limiter k; medium := medium k;
     enqueued := enqueued k; written := written k; notified := r;
     cache_until := cache_until k |}.

Definition with_cache_until (n : nat) (k : Knobs) : Knobs :=
  {| mongo := mongo k; limiter := limiter k; medium := medium k;
     enqueued := enqueued k; written := written k; notified := notified k;
     cache_until := n |}.

(** A second article of the same feed, and one of a feed in another
    channel. *)
Definition article2 : Article :=
  {| article_id := "a2"; link := None; title := Some "Second" |}.

Definition newArticle2 : NewArticle :=
  {| article := article2; feedObject := feed1 |}.

Definition feed3 : FeedObject :=
  {| feed_id := "f3"; url := "https://example.org/atom";
     feed_channel := "c3"; webhook := None |}.

Definition newArticle3 : NewArticle :=
  {| article := article1; feedObject := feed3 |}.

(** An installation in which the article cannot be rendered. *)
Definition unrenderable (e : JS.Error) (k : Knobs) : Externals := {|
  cache_get := cache_get (externals passing k);
  ArticleMessage_create _ _ _ := tick (Throw e);
  passedFilters := passedFilters (externals passing k);
  getMedium := getMedium (externals passing k);
  createAPIPayloads := createAPIPayloads (externals passing k);
  JSON_stringify := JSON_stringify (externals passing k);
  assertWithinLimits := assertWithinLimits (externals passing k);
  isMongoDatabase := isMongoDatabase (externals passing k);
  save := save (externals passing k);
  send := send (externals passing k);
  settles_first := settles_first (externals passing k)
|}.

Definition malformed : JS.Error := JS.new_Error "Unexpected token".

Definition silentError : JS.Error := JS.new_Error "".

End Scenario.

(** ** The shape of what the pipeline sends and stores *)

Section Shapes.

Context `{Sig}.

(** A request made for one article: a POST to the Discord API that carries
    the article's id, the feed's URL and the channel as its metadata. *)
Definition request_for (newArticle : NewArticle) (r : Request) : Prop :=
  req_method r = "POST" ∧
  String.prefix "https://discord.com/api/" (req_url r) = true ∧
  req_meta r =
    {| meta_articleID := article_id (article newArticle);
       meta_feedURL := url (feedObject newArticle);
       meta_channel := feed_channel (feedObject newArticle) |}.

(** A delivery record written for one article: an undelivered one that
    names the article, the feed and the channel and has a comment. *)
Definition record_for (newArticle : NewArticle) (d : DeliveryRecordData)
    : Prop :=
  delivered d = false ∧
  articleID d = article_id (article newArticle) ∧
  feedURL d = url (feedObject newArticle) ∧
  channel d = feed_channel (feedObject newArticle) ∧
  comment d ≠ "".

(** The state of a pipeline right after its constructor: [this.queues] is
    an empty map and no queue object exists yet. *)
Definition constructed (w : World) : State :=
  {| world := w; queues := ∅; heap := []; trace := [] |}.

End Shapes.

(** ** The test run of the schedules (the script that starts a
    [ScheduleManager] on a user's configuration)

    Everything the script calls lives in other files: the configuration
    store, the database connection, the models, the schedules and the
    [ScheduleManager] class.  They are parameters; the script is the order
    in which it calls them and what it does when one of them fails. *)

Module ScheduleRun.

Section Run.

Context {Config ConnectionOptions Connection Schedule TestRuns Core : Type}.
Context {Sys : Type}.

(** A [ScheduleManager] object: what its constructor built, and its
    [testRuns] property. *)
Record ScheduleManager := { core : Core; testRuns : TestRuns }.

Record RunSettings := { run_testRuns : TestRuns }.

Record Services := {
  (* require('../src/config.js').set *)
  setConfig : Config → Sys → Outcome Config * Sys;
  database_uri : Config → string;                        (* config.database.uri *)
  database_connection : Config → ConnectionOptions;      (* config.database.connection *)
  connectDatabase :
    string → ConnectionOptions → Sys → Outcome Connection * Sys;
  setupModels : Connection → Sys → Outcome unit * Sys;   (* initialize.setupModels *)
  populateSchedules : Sys → Outcome (list Schedule) * Sys;
  new_ScheduleManager : Sys → Outcome ScheduleManager * Sys;
  addSchedules :
    ScheduleManager → list Schedule → Sys → Outcome unit * Sys;
  beginTimers : ScheduleManager → Sys → Outcome unit * Sys
}.

(** The calls the script makes, in order. *)
Inductive Call :=
| CallSetConfig (c : Config)
| CallConnectDatabase (uri : string) (options : ConnectionOptions)
| CallConsoleLog (text : string)
| CallSetupModels (con : Connection)
| CallPopulateSchedules
| CallNewScheduleManager
| CallAddSchedules (m : ScheduleManager) (schedules : list Schedule)
| CallBeginTimers (m : ScheduleManager).

Record Machine := { sys : Sys; calls : list Call }.

Definition Script (A : Type) : Type := Machine → Outcome A * Machine.

#[export] Instance Script_ret : MRet Script := λ A a m, (Ok a, m).

#[export] Instance Script_bind : MBind Script := λ A B f c m,
  match c m with
  | (Ok a, m') => f a m'
  | (Throw e, m') => (Throw e, m')
  end.

(** A call to one of the services: traced, then run on the system. *)
Definition service {A} (c : Call) (f : Sys → Outcome A * Sys) : Script A :=
  λ m, let '(r, y) := f (sys m) in
       (r, {| sys := y; calls := calls m ++ [c] |}).

Definition console_log (text : string) : Script unit :=
  λ m, (Ok tt, {| sys := sys m; calls := calls m ++ [CallConsoleLog text] |}).

Variable V : Services.

(** [{ ...config }] is a copy with the same properties, so the second
    [setConfig] receives the configuration the first one returned. *)
Definition testScheduleRun (userConfig : Config) (runSettings : RunSettings)
    : Script ScheduleManager :=
  config ← service (CallSetConfig userConfig) (setConfig V userConfig);
  config ← service (CallSetConfig config) (setConfig V config);
  con ← service
    (CallConnectDatabase (database_uri V config) (database_connection V config))
    (connectDatabase V (database_uri V config) (database_connection V config));
  console_log "Connected to database";;
  service (CallSetupModels con) (setupModels V con);;
  schedules ← service CallPopulateSchedules (populateSchedules V);
  scheduleManager ← service CallNewScheduleManager (new_ScheduleManager V);
  let scheduleManager :=
    {| core := core scheduleManager; testRuns := run_testRuns runSettings |} in
  service (CallAddSchedules scheduleManager schedules)
          (addSchedules V scheduleManager schedules);;
  service (CallBeginTimers scheduleManager) (beginTimers V scheduleManager);;
  mret scheduleManager.

(** The managers whose timers were started. *)
Definition begun (cs : list Call) : list ScheduleManager :=
  omap (λ c, match c with CallBeginTimers m => Some m | _ => None end) cs.

End Run.

(** A small installation: the system counts the calls made so far, and the
    call numbered [failing], if any, is rejected. *)
Definition refused : JS.Error := JS.new_Error "ECONNREFUSED".

Definition step {A} (failing : option nat) (a : A) (n : nat)
    : Outcome A * nat :=
  (if decide (failing = Some n) then Throw refused else Ok a, S n).

Definition demo (failing : option nat)
    : @Services string string nat string bool nat nat := {|
  setConfig c := step failing c;
  database_uri c := "mongodb://localhost:27017/rss";
  database_connection c := c;
  connectDatabase _ _ := step failing 7;
  setupModels _ := step failing tt;
  populateSchedules := step failing ["default"; "vip"];
  new_ScheduleManager := step failing {| core := 1; testRuns := false |};
  addSchedules _ _ := step failing tt;
  beginTimers _ := step failing tt
|}.

Definition boot : @Machine string string nat string bool nat nat :=
  {| sys := 0; calls := [] |}.

End ScheduleRun.

(** ** Validation of the bot's configuration (util/config/schema.js)

    The schema is a Joi object; its [validate] method is a parameter.  What
    is modelled is the [validate] function the module exports. *)

Module ConfigSchema.

(** [l.join(sep)] for an array of strings *)
Fixpoint join (sep : string) (l : list string) : string :=
  match l with
  | [] => ""
  | [x] => x
  | x :: xs => x +:+ sep +:+ join sep xs
  end.

(** The line feed, character 10. *)
Definition newline : string :=
  String (Ascii.Ascii false true false true false false false false) "".

(** One entry of [results.error.details]. *)
Record Detail := { detail_message : string }.

(** What [schema.validate(config, { abortEarly: false })] returns: the
    details of its error, when there is one. *)
Record Result := { error_details : option (list Detail) }.

Section Validate.

Context {Config : Type}.
Variable schema_validate : Config → Result.

Definition failure_text (details : list Detail) : string :=
  "Bot config validation failed" +:+ newline +:+ newline +:+
  join newline (map detail_message details) +:+ newline.

Definition validate (config : Config) : Outcome unit :=
  match error_details (schema_validate config) with
  | Some details => Throw (JS.new_Error (failure_text details))
  | None => Ok tt
  end.

End Validate.

(** A schema that asks for a number greater than zero in each of two
    fields. *)
Definition two_fields (config : Z * Z) : Result :=
  let complaints :=
    (if (0 <? fst config)%Z then []
     else [{| detail_message := "advanced.batchSize must be greater than 0" |}]) ++
    (if (0 <? snd config)%Z then []
     else [{| detail_message := "advanced.parallelRuns must be greater than 0" |}]) in
  {| error_details :=
       match complaints with [] => None | _ => Some complaints end |}.

End ConfigSchema.

(** ** Properties *)

Lemma includes_prefix (needle rest : string) :
  JS.includes needle (needle +:+ rest) = true.
Proof.
  assert (P : String.prefix needle (needle +:+ rest) = true).
  { induction needle as [|a n IH]; simpl.
    - by destruct rest.
    - destruct (Ascii.ascii_dec a a); [exact IH | congruence]. }
  destruct needle; simpl in *.
  - destruct rest; reflexivity.
  - rewrite P. reflexivity.
Qed.

Lemma includes_app (needle before rest : string) :
  JS.includes needle (before +:+ needle +:+ rest) = true.
Proof.
  induction before as [|a b IH].
  - exact (includes_prefix needle rest).
  - change (JS.includes needle (String a (b +:+ needle +:+ rest)) = true).
    simpl. rewrite IH. apply orb_true_r.
Qed.

Lemma includes_app_r (needle before hay : string) :
  JS.includes needle hay = true → JS.includes needle (before +:+ hay) = true.
Proof.
  intros Hi. induction before as [|a b IH]; [exact Hi|].
  change (JS.includes needle (String a (b +:+ hay)) = true).
  simpl. rewrite IH. apply orb_true_r.
Qed.

Lemma includes_nonempty (needle hay : string) :
  needle ≠ "" → JS.includes needle hay = true → hay ≠ "".
Proof.
  intros Hn Hi ->. destruct needle; [congruence | discriminate].
Qed.

Lemma or_default_limited (m : string) :
  JS.includes "limited" m = true → JS.or_default m "N/A" = m.
Proof.
  intros Hi. unfold JS.or_default.
  destruct (String.eqb_spec m ""); [|reflexivity].
  subst. discriminate.
Qed.

Section Properties.

Context `{Sig}.
Implicit Types (X : Externals) (this : DeliveryPipeline).
Implicit Types (s : State) (newArticle : NewArticle) (err : JS.Error).

#[local] Arguments recordFailure : simpl never.
#[local] Arguments recordFilterBlock : simpl never.
#[local] Arguments sendToService : simpl never.
#[local] Arguments sendNewArticle : simpl never.
#[local] Arguments handleArticleFailure : simpl never.
#[local] Arguments handleArticleBlocked : simpl never.
#[local] Arguments deliver_try : simpl never.
#[local] Arguments Promise_all : simpl never.

Ltac unfold_monad :=
  unfold mbind, M_bind, mret, M_ret, try_catch, call, log, throw, sync,
    emit, set_world in *; simpl in *.

(** C6: when the channel of the feed is not in the cache, [deliver]
    returns at once and leaves the state as it was: nothing is rendered,
    recorded, queued or sent. *)
Theorem deliver_missing_channel X this newArticle debug s :
  cache_get X (world s) (feed_channel (feedObject newArticle)) = None →
  deliver X this newArticle debug s = (Ok tt, s).
Proof.
  intros Hc. unfold deliver, getChannel. unfold_monad. by rewrite Hc.
Qed.

Ltac views :=
  unfold saved, save_attempts, requests, notifications, limiter_calls,
    renderings, logged, attempted, stored in *;
  rewrite ?omap_app; simpl; rewrite ?app_nil_r, <- ?app_assoc; simpl.

(** What one recording does, whichever of the two recorders runs it. *)
Lemma recordFailure_run X newArticle errorMessage s :
  ∃ s', recordFailure X newArticle errorMessage s = (Ok tt, s') ∧
    heap s' = heap s ∧ queues s' = queues s ∧
    world s' =
      (if isMongoDatabase X
       then snd (save X (failureData newArticle errorMessage) (world s))
       else world s) ∧
    ∃ delta, trace s' = trace s ++ delta ∧
      save_attempts delta = attempted X (failureData newArticle errorMessage) ∧
      saved delta =
        stored X (failureData newArticle errorMessage) (world s) ∧
      requests delta = [] ∧ notifications delta = [] ∧
      limiter_calls delta = [] ∧ renderings delta = [] ∧
      logged Warn delta = [] ∧ logged Info delta = [].
Proof.
  unfold recordFailure, record_save, attempted, stored.
  destruct (isMongoDatabase X); unfold_monad.
  - destruct (save X _ (world s)) as [[[]|e] w] eqn:Hs; simpl;
      (eexists; split; [reflexivity|]); simpl;
      repeat split; (eexists; split; [rewrite <- ?app_assoc; reflexivity|]);
      repeat split.
  - eexists; split; [reflexivity|]. repeat split.
    exists []. rewrite app_nil_r. repeat split.
Qed.

Lemma recordFilterBlock_run X newArticle s :
  ∃ s', recordFilterBlock X newArticle s = (Ok tt, s') ∧
    heap s' = heap s ∧ queues s' = queues s ∧
    world s' =
      (if isMongoDatabase X
       then snd (save X (filterBlockData newArticle) (world s))
       else world s) ∧
    ∃ delta, trace s' = trace s ++ delta ∧
      save_attempts delta = attempted X (filterBlockData newArticle) ∧
      saved delta = stored X (filterBlockData newArticle) (world s) ∧
      requests delta = [] ∧ notifications delta = [] ∧
      limiter_calls delta = [] ∧ renderings delta = [] ∧
      logged Warn delta = [] ∧ logged Info delta = [].
Proof.
  unfold recordFilterBlock, record_save, attempted, stored.
  destruct (isMongoDatabase X); unfold_monad.
  - destruct (save X _ (world s)) as [[[]|e] w] eqn:Hs; simpl;
      (eexists; split; [reflexivity|]); simpl;
      repeat split; (eexists; split; [rewrite <- ?app_assoc; reflexivity|]);
      repeat split.
  - eexists; split; [reflexivity|]. repeat split.
    exists []. rewrite app_nil_r. repeat split.
Qed.

(** C8: recording an outcome never disturbs the delivery.  Both recorders
    always return normally; without a database they do nothing at all; and
    when the write throws, the error is logged at error level inside the
    recorder, nothing is stored, and the recorder still returns
    normally. *)
Theorem recording_is_fire_and_forget X newArticle errorMessage s :
  (fst (recordFailure X newArticle errorMessage s) = Ok tt ∧
   fst (recordFilterBlock X newArticle s) = Ok tt) ∧
  (isMongoDatabase X = false →
     recordFailure X newArticle errorMessage s = (Ok tt, s) ∧
     recordFilterBlock X newArticle s = (Ok tt, s)) ∧
  (isMongoDatabase X = true →
     (∀ e w,
        save X (failureData newArticle errorMessage) (world s) = (Throw e, w) →
        let s' := snd (recordFailure X newArticle errorMessage s) in
        fst (recordFailure X newArticle errorMessage s) = Ok tt ∧
        saved (trace s') = saved (trace s) ∧
        ∃ text, logged LError (trace s') =
          logged LError (trace s) ++
          [{| level := LError; bindings := BindError e; msg := text |}]) ∧
     (∀ e w,
        save X (filterBlockData newArticle) (world s) = (Throw e, w) →
        let s' := snd (recordFilterBlock X newArticle s) in
        fst (recordFilterBlock X newArticle s) = Ok tt ∧
        saved (trace s') = saved (trace s) ∧
        ∃ text, logged LError (trace s') =
          logged LError (trace s) ++
          [{| level := LError; bindings := BindError e; msg := text |}])).
Proof.
  split; [|split].
  - destruct (recordFailure_run X newArticle errorMessage s) as (?&->&_).
    destruct (recordFilterBlock_run X newArticle s) as (?&->&_). done.
  - intros Hm. unfold recordFailure, recordFilterBlock. rewrite Hm. done.
  - intros Hm. unfold recordFailure, recordFilterBlock, record_save.
    rewrite Hm. unfold_monad.
    split; intros e w Hs; rewrite Hs; simpl;
      (split; [reflexivity|]); (split; [by views|]);
      eexists; by views.
Qed.

(** C9: [getQueueForChannel] is idempotent.  A call returns a queue that
    the registry now maps the channel to; a second call returns the same
    queue object and changes nothing; a queue object is allocated only
    when the channel had none, and the other channels keep theirs. *)
Theorem getQueueForChannel_idempotent (channelID : string) s :
  ∃ queue s1,
    getQueueForChannel channelID s = (Ok queue, s1) ∧
    getQueueForChannel channelID s1 = (Ok queue, s1) ∧
    queues s1 !! channelID = Some queue ∧
    (is_Some (queues s !! channelID) → s1 = s) ∧
    (queues s !! channelID = None →
       queue = length (heap s) ∧ heap s1 = heap s ++ [[]]) ∧
    (∀ other, other ≠ channelID → queues s1 !! other = queues s !! other).
Proof.
  unfold getQueueForChannel.
  destruct (queues s !! channelID) as [queue|] eqn:Hq.
  - exists queue, s. rewrite Hq. split_and!; done.
  - eexists _, _. split; [reflexivity|]. simpl.
    rewrite lookup_insert_eq. split_and!; try done.
    intros other Hne. by rewrite lookup_insert_ne.
Qed.

(** [getQueueForChannel] keeps the registry well formed. *)
Lemma getQueueForChannel_wf (channelID : string) s :
  registry_wf s → registry_wf (snd (getQueueForChannel channelID s)).
Proof.
  intros [Hb Hi]. unfold getQueueForChannel.
  destruct (queues s !! channelID) as [queue|] eqn:Hq; [done|].
  split; simpl.
  - apply map_Forall_insert_2.
    + rewrite length_app. simpl. lia.
    + eapply map_Forall_impl; [exact Hb|].
      intros ? ? ?. rewrite length_app. simpl in *. lia.
  - intros c1 c2 queue.
    rewrite !lookup_insert.
    repeat case_decide; subst; try done.
    + intros [= <-] H2. apply Hb in H2. simpl in H2. lia.
    + intros H1 [= <-]. apply Hb in H1. simpl in H1. lia.
    + apply Hi.
Qed.

Lemma recordFailure_log_lines X newArticle errorMessage s :
  log_lines (trace (snd (recordFailure X newArticle errorMessage s))) =
    log_lines (trace s) ++
    recordFailure_lines X newArticle errorMessage (world s).
Proof.
  unfold recordFailure, record_save, recordFailure_lines, log_lines.
  destruct (isMongoDatabase X); unfold_monad; [|by rewrite app_nil_r].
  destruct (save X _ (world s)) as [[[]|e] w]; simpl;
    rewrite !omap_app; simpl; by rewrite ?app_nil_r, <- ?app_assoc.
Qed.

(** C10, as the code has it: the failure handler tells a rate-limited error
    from any other by one test, whether the error's message contains the
    text "limited".  If it does, whatever the error is, the handler's own
    line is the debug line "Ignoring rate-limited article", its last act:
    no warning line, no info line and no message to the channel.  The only
    other lines are those of the record written first: with a database a
    debug line and, when the write throws, one line at error level that
    binds the error of the write and quotes the message of the caught
    error.  If the message does not contain "limited", the error is logged
    at warning level, after the lines of the record. *)
Theorem failure_classified_by_message X newArticle err s :
  let s' := snd (handleArticleFailure X newArticle err s) in
  if JS.includes "limited" (JS.message err)
  then
    fst (handleArticleFailure X newArticle err s) = Ok tt ∧
    last (trace s') =
      Some (EvLog {| level := Debug; bindings := BindError err;
                     msg := "Ignoring rate-limited article" |}) ∧
    log_lines (trace s') =
      log_lines (trace s) ++
      recordFailure_lines X newArticle (JS.message err) (world s) ++
      [{| level := Debug; bindings := BindError err;
          msg := "Ignoring rate-limited article" |}] ∧
    logged Warn (trace s') = logged Warn (trace s) ∧
    logged Info (trace s') = logged Info (trace s) ∧
    notifications (trace s') = notifications (trace s)
  else
    logged Warn (trace s') =
      logged Warn (trace s) ++
      [{| level := Warn; bindings := BindError err;
          msg := failureWarning newArticle |}] ∧
    log_lines (trace s') =
      log_lines (trace s) ++
      recordFailure_lines X newArticle
        (JS.or_default (JS.message err) "N/A") (world s) ++
      [{| level := Warn; bindings := BindError err;
          msg := failureWarning newArticle |}].
Proof.
  cbv zeta. unfold handleArticleFailure, getChannel. unfold_monad.
  pose proof (recordFailure_log_lines X newArticle
                (JS.or_default (JS.message err) "N/A") s) as Hlog.
  destruct (recordFailure_run X newArticle
              (JS.or_default (JS.message err) "N/A") s)
    as (s1 & Hrun & _ & _ & _ & delta & Ht & _ & _ & _ & Hn & _ & _ & Hw & Hi).
  rewrite Hrun in Hlog |- *. simpl in Hlog.
  destruct (JS.includes "limited" (JS.message err)) eqn:Hl.
  - rewrite (or_default_limited _ Hl) in Hlog.
    simpl. split_and!.
    + done.
    + by rewrite last_snoc.
    + unfold log_lines in *. rewrite omap_app, Hlog. simpl.
      by rewrite <- app_assoc.
    + rewrite Ht. views. by rewrite Hw, app_nil_r.
    + rewrite Ht. views. by rewrite Hi, app_nil_r.
    + rewrite Ht. views. by rewrite Hn, app_nil_r.
  - simpl.
    assert (Hfinal : ∀ tail : list Event,
      log_lines tail = [] → logged Warn tail = [] →
      logged Warn
        ((trace s1 ++
          [EvLog {| level := Warn; bindings := BindError err;
                    msg := failureWarning newArticle |}]) ++ tail) =
        logged Warn (trace s) ++
        [{| level := Warn; bindings := BindError err;
            msg := failureWarning newArticle |}] ∧
      log_lines
        ((trace s1 ++
          [EvLog {| level := Warn; bindings := BindError err;
                    msg := failureWarning newArticle |}]) ++ tail) =
        log_lines (trace s) ++
        recordFailure_lines X newArticle
          (JS.or_default (JS.message err) "N/A") (world s) ++
        [{| level := Warn; bindings := BindError err;
            msg := failureWarning newArticle |}]).
    { intros tail H1 H2. split.
      - rewrite Ht. unfold logged in *. rewrite !omap_app, H2, Hw. simpl.
        by rewrite !app_nil_r.
      - unfold log_lines in *. rewrite !omap_app, Hlog, H1. simpl.
        by rewrite app_nil_r, <- app_assoc. }
    destruct (JS.code_is _ _); simpl.
    + destruct (cache_get X (world s) _); simpl.
      * destruct (send X _ _ _); simpl. by apply (Hfinal [_]).
      * rewrite <- (app_nil_r (_ ++ [_])). by apply Hfinal.
    + rewrite <- (app_nil_r (_ ++ [_])). by apply Hfinal.
Qed.

(** *** What a dispatch leaves in the trace *)

Ltac extend_silently :=
  eexists; split; [rewrite <- ?app_assoc; reflexivity | by repeat split].

Lemma silent_nil : silent [].
Proof. done. Qed.

Lemma silent_app (d1 d2 : list Event) :
  silent d1 → silent d2 → silent (d1 ++ d2).
Proof.
  unfold silent, save_attempts, saved, notifications.
  intros (?&?&?) (?&?&?). rewrite !omap_app.
  split_and!; by apply app_nil.
Qed.

Lemma silent_requests (rs : list Request) : silent (map EvRequest rs).
Proof.
  induction rs as [|r rs IH]; [done|].
  change (silent ([EvRequest r] ++ map EvRequest rs)).
  by apply silent_app.
Qed.

Lemma requests_map (rs : list Request) : requests (map EvRequest rs) = rs.
Proof. induction rs as [|r rs IH]; simpl; [done|]. by f_equal. Qed.

Lemma settle_cons {A} (p : M A) (ps : list (M A)) s :
  settle (p :: ps) s =
    (fst (p s) :: fst (settle ps (snd (p s))), snd (settle ps (snd (p s)))).
Proof.
  simpl. destruct (p s) as [r s1]. simpl. by destruct (settle ps s1).
Qed.

Lemma rejected_none {A} (rs : list (Outcome A)) :
  forallb is_Ok rs = match rejected rs with [] => true | _ => false end.
Proof.
  induction rs as [|[a|e] rs IH]; simpl; [done| |done].
  rewrite IH. unfold rejected. simpl. done.
Qed.

Lemma restProducer_enqueue_run this producer (r : Request) s :
  restProducer this = Some producer →
  restProducer_enqueue this r s =
    (fst (enqueue producer r (world s)),
     {| world := snd (enqueue producer r (world s));
        queues := queues s; heap := heap s;
        trace := trace s ++ [EvRequest r] |}).
Proof.
  intros Hp. unfold restProducer_enqueue. rewrite Hp. unfold_monad.
  by destruct (enqueue producer r (world s)).
Qed.

Lemma settle_enqueue this producer (rs : list Request) s :
  restProducer this = Some producer →
  ∃ s', settle (map (restProducer_enqueue this) rs) s =
          (enqueue_outcomes producer rs (world s), s') ∧
    heap s' = heap s ∧ queues s' = queues s ∧
    trace s' = trace s ++ map EvRequest rs.
Proof.
  intros Hp. revert s.
  induction rs as [|r rs IH]; intros s.
  - eexists. split; [reflexivity|]. by rewrite app_nil_r.
  - cbn [map enqueue_outcomes]. rewrite settle_cons.
    rewrite !(restProducer_enqueue_run this producer) by done.
    destruct (enqueue producer r (world s)) as [o w] eqn:Ho. simpl.
    match goal with |- context [settle _ ?st] =>
      destruct (IH st) as (s' & -> & Hh & Hq & Ht) end.
    simpl in *. eexists. split; [reflexivity|].
    split_and!; try done.
    by rewrite Ht, <- app_assoc.
Qed.

Lemma Promise_all_enqueue (first : World → list JS.Thrown → nat) this producer
    (rs : list Request) s :
  restProducer this = Some producer →
  ∃ r s', Promise_all first (map (restProducer_enqueue this) rs) s = (r, s') ∧
    heap s' = heap s ∧ queues s' = queues s ∧
    trace s' = trace s ++ map EvRequest rs ∧
    is_Ok r = forallb is_Ok (enqueue_outcomes producer rs (world s)).
Proof.
  intros Hp. unfold Promise_all.
  destruct (settle_enqueue this producer rs s Hp) as (s' & -> & Hh & Hq & Ht).
  rewrite rejected_none.
  destruct (rejected (enqueue_outcomes producer rs (world s)));
    eexists _, _; (split; [reflexivity|]); by split_and!.
Qed.

Lemma nth_all_equal {A} (l : list A) (x : A) (i : nat) :
  Forall (λ y, y = x) l → nth i l x = x.
Proof.
  intros Hl. revert i. induction Hl as [|y l -> _ IH]; intros [|i]; simpl;
    auto.
Qed.

Lemma Promise_all_no_producer (first : World → list JS.Thrown → nat) this
    (rs : list Request) s :
  restProducer this = None →
  Promise_all first (map (restProducer_enqueue this) rs) s =
    (match rs with [] => Ok [] | _ => Throw (JS.TypeError "enqueue") end, s).
Proof.
  intros Hp.
  assert (Hs : settle (map (restProducer_enqueue this) rs) s =
                 (map (λ _, Throw (JS.Err (JS.TypeError "enqueue"))) rs, s)).
  { induction rs as [|r rs IH]; [done|].
    assert (Hr : restProducer_enqueue this r s =
                   (Throw (JS.TypeError "enqueue"), s))
      by (unfold restProducer_enqueue; by rewrite Hp).
    cbn [map]. rewrite settle_cons, !Hr. simpl. by rewrite IH. }
  unfold Promise_all. rewrite Hs.
  assert (Hrej : ∀ l : list Request,
    rejected (map (λ _, Throw (A:=unit) (JS.Err (JS.TypeError "enqueue"))) l)
    = map (λ _, JS.Err (JS.TypeError "enqueue")) l).
  { induction l as [|x l IH]; [done|].
    unfold rejected in *. simpl. f_equal. exact IH. }
  rewrite Hrej. destruct rs as [|r rs]; [done|]. simpl. f_equal. f_equal.
  destruct (first (world s) _) as [|i]; [done|].
  apply nth_all_equal. apply Forall_map, Forall_forall. done.
Qed.

(** A run of [sendToService] touches no queue, writes no record and sends
    nothing to a channel. *)
Lemma sendToService_frame X this newArticle articleMessage s :
  ∃ r s' delta,
    sendToService X this newArticle articleMessage s = (r, s') ∧
    heap s' = heap s ∧ queues s' = queues s ∧
    trace s' = trace s ++ delta ∧ silent delta.
Proof.
  unfold sendToService. unfold_monad.
  destruct (getMedium X articleMessage (world s)) as [[[medium|]|e] w];
    simpl; try by (eexists _, _, _; split_and!; done).
  destruct (createAPIPayloads X articleMessage _) as [ps|e]; simpl;
    [|by (eexists _, _, _; split_and!; done)].
  rewrite <- (map_map (apiRequest X newArticle medium)
                      (restProducer_enqueue this)).
  destruct (restProducer this) as [producer|] eqn:Hp.
  - match goal with |- context [Promise_all ?first _ ?st] =>
      destruct (Promise_all_enqueue first this producer
                  (map (apiRequest X newArticle medium) ps) st Hp)
        as (r & s' & -> & Hh & Hq & Ht & _) end.
    simpl in *. eexists _, _, _. split_and!; try done.
    + rewrite Ht, <- app_assoc. reflexivity.
    + apply silent_app; [done|apply silent_requests].
  - rewrite Promise_all_no_producer by done.
    eexists _, _, _; split_and!; done.
Qed.

Lemma sendNewArticle_throw X this newArticle articleMessage s
    (caught : JS.Thrown) s1 :
  sendNewArticle X this newArticle articleMessage s = (Throw caught, s1) →
  heap s1 = heap s ∧ queues s1 = queues s ∧
  ∃ delta, trace s1 = trace s ++ delta ∧ silent delta.
Proof.
  unfold sendNewArticle. unfold_monad.
  destruct (assertWithinLimits X articleMessage (world s)) as [[[]|e] w];
    simpl; [|intros [= <- <-]; split_and!; try done; extend_silently].
  destruct (restProducer this) as [producer|];
    [|unfold getQueueForChannel, queue_enqueue; simpl;
      by destruct (queues s !! _)].
  match goal with |- context [sendToService _ _ _ _ ?st] =>
    destruct (sendToService_frame X this newArticle articleMessage st)
      as (r & s' & delta & -> & Hh & Hq & Ht & Hs) end.
  destruct r; simpl; [done|]. intros [= <- <-]. simpl in *.
  split_and!; try done. eexists. split.
  - rewrite Ht, <- app_assoc. reflexivity.
  - by apply silent_app.
Qed.

(** When the [try] block of [deliver] throws, no queue was touched, no
    record was written and nothing was sent to a channel. *)
Lemma deliver_try_throw X this newArticle debug s (caught : JS.Thrown) s1 :
  deliver_try X this newArticle debug s = (Throw caught, s1) →
  heap s1 = heap s ∧ queues s1 = queues s ∧
  ∃ delta, trace s1 = trace s ++ delta ∧ silent delta.
Proof.
  unfold deliver_try, createArticleMessage. unfold_monad.
  destruct (ArticleMessage_create X _ _ debug (world s)) as [[am|e] w];
    simpl; [|intros [= <- <-]; split_and!; try done; extend_silently].
  destruct (passedFilters X am); simpl.
  - intros Hs. apply sendNewArticle_throw in Hs as (Hh & Hq & delta & Ht & Hsil).
    simpl in *. split_and!; try done. eexists. split.
    + rewrite Ht, <- !app_assoc. reflexivity.
    + apply silent_app; [|done]. done.
  - unfold handleArticleBlocked. unfold_monad.
    destruct (logFiltered this); simpl.
    + match goal with |- context [recordFilterBlock _ _ ?st] =>
        destruct (recordFilterBlock_run X newArticle st) as (?&->&_) end.
      done.
    + destruct (recordFilterBlock_run X newArticle
        {| world := w; queues := queues s; heap := heap s;
           trace := trace s ++
             [EvCreate (feedObject newArticle) (article newArticle) debug] |})
        as (?&->&_).
      done.
Qed.

(** *** The failure handler *)

Lemma handleArticleFailure_limited X newArticle err s :
  JS.includes "limited" (JS.message err) = true →
  let data := failureData newArticle (JS.message err) in
  ∃ s', handleArticleFailure X newArticle err s = (Ok tt, s') ∧
    heap s' = heap s ∧ queues s' = queues s ∧
    ∃ delta, trace s' = trace s ++ delta ∧
      requests delta = [] ∧ notifications delta = [] ∧
      limiter_calls delta = [] ∧ logged Warn delta = [] ∧
      save_attempts delta = attempted X data ∧
      saved delta = stored X data (world s).
Proof.
  intros Hl. cbv zeta. unfold handleArticleFailure, getChannel. unfold_monad.
  rewrite (or_default_limited _ Hl), Hl.
  destruct (recordFailure_run X newArticle (JS.message err) s)
    as (s1 & -> & Hh & Hq & _ & delta & Ht & Ha & Hs & Hr & Hn & Hc & _ & Hw & _).
  simpl. eexists. split; [reflexivity|]. simpl. split_and!; try done.
  exists (delta ++ [EvLog {| level := Debug; bindings := BindError err;
                             msg := "Ignoring rate-limited article" |}]).
  rewrite Ht, <- app_assoc. split; [done|].
  views. rewrite Hr, Hn, Hc, Hw, Ha, Hs. by rewrite ?app_nil_r.
Qed.

Lemma handleArticleFailure_other X newArticle err s :
  JS.includes "limited" (JS.message err) = false →
  let data :=
    failureData newArticle (JS.or_default (JS.message err) "N/A") in
  let notice := failureNotice newArticle err in
  ∃ r s', handleArticleFailure X newArticle err s = (r, s') ∧
    heap s' = heap s ∧ queues s' = queues s ∧
    ∃ delta, trace s' = trace s ++ delta ∧
      requests delta = [] ∧ limiter_calls delta = [] ∧
      save_attempts delta = attempted X data ∧
      saved delta = stored X data (world s) ∧
      logged Warn delta =
        [{| level := Warn; bindings := BindError err;
            msg := failureWarning newArticle |}] ∧
      if JS.code_is (JS.code_of err) 50035
      then
        match cache_get X (world s) (feed_channel (feedObject newArticle))
        with
        | Some channel =>
            notifications delta = [(channel, notice)] ∧
            r = fst (send X channel notice
                       (world_after_record X data (world s)))
        | None => notifications delta = [] ∧ r = Throw (JS.TypeError "send")
        end
      else notifications delta = [] ∧ r = Ok tt.
Proof.
  intros Hl. cbv zeta. unfold handleArticleFailure, getChannel. unfold_monad.
  rewrite Hl.
  destruct (recordFailure_run X newArticle
              (JS.or_default (JS.message err) "N/A") s)
    as (s1 & -> & Hh & Hq & Hw1 & delta & Ht & Ha & Hs & Hr & Hn & Hc & _ & Hw & _).
  simpl. unfold world_after_record. rewrite <- Hw1.
  destruct (JS.code_is _ _); simpl.
  - destruct (cache_get X (world s) _) as [channel|]; simpl.
    + destruct (send X channel _ (world s1)) as [r w]; simpl.
      eexists _, _. split; [reflexivity|]. simpl. split_and!; try done.
      eexists. split; [rewrite Ht, <- !app_assoc; reflexivity|].
      views. rewrite Hr, Hn, Hc, Hw, Ha, Hs. by rewrite ?app_nil_r.
    + eexists _, _. split; [reflexivity|]. simpl. split_and!; try done.
      eexists. split; [rewrite Ht, <- !app_assoc; reflexivity|].
      views. rewrite Hr, Hn, Hc, Hw, Ha, Hs. by rewrite ?app_nil_r.
  - eexists _, _. split; [reflexivity|]. simpl. split_and!; try done.
    eexists. split; [rewrite Ht, <- !app_assoc; reflexivity|].
    views. rewrite Hr, Hn, Hc, Hw, Ha, Hs. by rewrite ?app_nil_r.
Qed.

(** *** Deliveries *)

Ltac chain_views Ht :=
  rewrite Ht; views;
  repeat match goal with
         | E : omap _ _ = _ |- _ => rewrite E
         end;
  rewrite ?app_nil_r; try done.

(** C1, as the code has it: when the rate limiter rejects an article with
    an error whose message contains "limited", [deliver] returns normally
    and dispatches nothing: no request to the REST producer, no queue
    touched, no warning line and no message to the channel.  The failure
    handler records the rejection all the same: with a database it writes
    one delivery record, not delivered, whose comment is the limiter's
    message (stored if the write succeeds); without a database it records
    nothing. *)
Theorem deliver_rate_limited X this newArticle debug s channel am w1 err w2 :
  cache_get X (world s) (feed_channel (feedObject newArticle)) = Some channel →
  ArticleMessage_create X (feedObject newArticle) (article newArticle) debug
    (world s) = (Ok am, w1) →
  passedFilters X am = true →
  assertWithinLimits X am w1 = (Throw err, w2) →
  JS.includes "limited" (JS.message err) = true →
  let s' := snd (deliver X this newArticle debug s) in
  let data := failureData newArticle (JS.message err) in
  fst (deliver X this newArticle debug s) = Ok tt ∧
  requests (trace s') = requests (trace s) ∧
  heap s' = heap s ∧ queues s' = queues s ∧
  notifications (trace s') = notifications (trace s) ∧
  logged Warn (trace s') = logged Warn (trace s) ∧
  save_attempts (trace s') = save_attempts (trace s) ++ attempted X data ∧
  saved (trace s') = saved (trace s) ++ stored X data w2.
Proof.
  intros Hc Hcreate Hpass Hlim Hmsg. cbv zeta.
  unfold deliver, getChannel, deliver_try, createArticleMessage,
    sendNewArticle.
  unfold_monad. rewrite Hc, Hcreate. simpl. rewrite Hpass. simpl.
  rewrite Hlim. simpl.
  match goal with |- context [handleArticleFailure _ _ _ ?st] =>
    destruct (handleArticleFailure_limited X newArticle err st Hmsg)
      as (s' & -> & Hh & Hq & delta & Ht & Hr & Hn & _ & Hw & Ha & Hs) end.
  simpl in *. split_and!; try done; chain_views Ht.
Qed.

(** C2, as the code has it: when the medium is gone by the time
    [sendToService] asks for it, [deliver] returns normally, no exception
    leaves it, nothing is dispatched and nothing is sent to the channel.
    The missing medium is handled as a delivery failure: a warning is
    logged and, with a database, one delivery record is written, not
    delivered, with the comment "Missing medium to send article via
    service" (stored if the write succeeds); without a database nothing
    is recorded. *)
Theorem deliver_missing_medium X this newArticle debug s channel am w1
    producer w2 w3 :
  cache_get X (world s) (feed_channel (feedObject newArticle)) = Some channel →
  ArticleMessage_create X (feedObject newArticle) (article newArticle) debug
    (world s) = (Ok am, w1) →
  passedFilters X am = true →
  restProducer this = Some producer →
  assertWithinLimits X am w1 = (Ok tt, w2) →
  getMedium X am w2 = (Ok None, w3) →
  let s' := snd (deliver X this newArticle debug s) in
  let err := JS.new_Error "Missing medium to send article via service" in
  let data := failureData newArticle (JS.message err) in
  fst (deliver X this newArticle debug s) = Ok tt ∧
  requests (trace s') = requests (trace s) ∧
  heap s' = heap s ∧ queues s' = queues s ∧
  notifications (trace s') = notifications (trace s) ∧
  logged Warn (trace s') =
    logged Warn (trace s) ++
    [{| level := Warn; bindings := BindError err;
        msg := failureWarning newArticle |}] ∧
  save_attempts (trace s') = save_attempts (trace s) ++ attempted X data ∧
  saved (trace s') = saved (trace s) ++ stored X data w3.
Proof.
  intros Hc Hcreate Hpass Hprod Hlim Hmed. cbv zeta.
  unfold deliver, getChannel, deliver_try, createArticleMessage,
    sendNewArticle, sendToService.
  unfold_monad. rewrite Hc, Hcreate. simpl. rewrite Hpass. simpl.
  rewrite Hlim, Hprod. simpl. rewrite Hmed. simpl.
  match goal with |- context [handleArticleFailure _ _ (JS.Err ?e) ?st] =>
    destruct (handleArticleFailure_other X newArticle e st eq_refl)
      as (r & s' & -> & Hh & Hq & delta & Ht & Hr & _ & Ha & Hs & Hw & Hn) end.
  simpl in *. destruct Hn as [Hn ->].
  split_and!; try done; chain_views Ht.
Qed.

(** C4, as the code has it: when the rendered message fails the filters,
    [deliver] returns normally without asking the rate limiter and without
    dispatching anything: no request to the REST producer, no queue
    touched, nothing sent to the channel.  With a database it writes
    exactly one delivery record, not delivered, with the comment "Blocked
    by filters" (stored if the write succeeds); without a database it
    records nothing. *)
Theorem deliver_blocked X this newArticle debug s channel am w1 :
  cache_get X (world s) (feed_channel (feedObject newArticle)) = Some channel →
  ArticleMessage_create X (feedObject newArticle) (article newArticle) debug
    (world s) = (Ok am, w1) →
  passedFilters X am = false →
  let s' := snd (deliver X this newArticle debug s) in
  let data := filterBlockData newArticle in
  fst (deliver X this newArticle debug s) = Ok tt ∧
  requests (trace s') = requests (trace s) ∧
  limiter_calls (trace s') = limiter_calls (trace s) ∧
  heap s' = heap s ∧ queues s' = queues s ∧
  notifications (trace s') = notifications (trace s) ∧
  save_attempts (trace s') = save_attempts (trace s) ++ attempted X data ∧
  saved (trace s') = saved (trace s) ++ stored X data w1 ∧
  delivered data = false ∧ comment data = "Blocked by filters".
Proof.
  intros Hc Hcreate Hpass. cbv zeta.
  unfold deliver, getChannel, deliver_try, createArticleMessage,
    handleArticleBlocked.
  unfold_monad. rewrite Hc, Hcreate. simpl. rewrite Hpass. simpl.
  destruct (logFiltered this); simpl;
    match goal with |- context [recordFilterBlock _ _ ?st] =>
      destruct (recordFilterBlock_run X newArticle st)
        as (s' & -> & Hh & Hq & _ & delta & Ht & Ha & Hs & Hr & Hn & Hl & _)
    end;
    simpl in *; split_and!; try done; chain_views Ht.
Qed.

Lemma failureNotice_includes newArticle err :
  JS.includes (JS.message err) (failureNotice newArticle err) = true.
Proof.
  unfold failureNotice. do 3 apply includes_app_r. apply includes_prefix.
Qed.

(** C5, as the code has it: when the delivery of an article fails with an
    error of code 50035 whose message does not contain "limited", and the
    channel is still in the cache, the pipeline sends exactly one message
    to the channel, which contains the error's message.  It is sent once:
    the result of [deliver] is the result of that one send, so a failed
    notification is not retried (its error leaves [deliver]), and no queue
    is touched and no request is issued by the handler.  With a database,
    one delivery record is written, not delivered, whose comment is the
    error's message, or "N/A" if that is empty (stored if the write
    succeeds); without a database nothing is recorded. *)
Theorem deliver_bad_request X this newArticle debug s channel0 err s1 channel :
  cache_get X (world s) (feed_channel (feedObject newArticle)) = Some channel0 →
  deliver_try X this newArticle debug s = (Throw err, s1) →
  JS.code_is (JS.code_of err) 50035 = true →
  JS.includes "limited" (JS.message err) = false →
  cache_get X (world s1) (feed_channel (feedObject newArticle)) = Some channel →
  let s' := snd (deliver X this newArticle debug s) in
  let data :=
    failureData newArticle (JS.or_default (JS.message err) "N/A") in
  let notice := failureNotice newArticle err in
  notifications (trace s') = notifications (trace s) ++ [(channel, notice)] ∧
  JS.includes (JS.message err) notice = true ∧
  fst (deliver X this newArticle debug s) =
    fst (send X channel notice (world_after_record X data (world s1))) ∧
  requests (trace s') = requests (trace s1) ∧
  heap s' = heap s ∧ queues s' = queues s ∧
  save_attempts (trace s') = save_attempts (trace s) ++ attempted X data ∧
  saved (trace s') = saved (trace s) ++ stored X data (world s1) ∧
  delivered data = false.
Proof.
  intros Hc0 Htry Hcode Hnl Hc. cbv zeta.
  unfold deliver, getChannel. unfold_monad. rewrite Hc0, Htry.
  destruct (deliver_try_throw _ _ _ _ _ _ _ Htry)
    as (Hh1 & Hq1 & d1 & Ht1 & Ha1 & Hs1 & Hn1).
  destruct (handleArticleFailure_other X newArticle err s1 Hnl)
    as (r & s' & -> & Hh & Hq & delta & Ht & Hr & _ & Ha & Hs & Hw & Hn).
  rewrite Hcode, Hc in Hn. destruct Hn as [Hn ->]. simpl.
  split_and!; try congruence.
  - rewrite Ht, Ht1. views.
    by rewrite Hn1, Hn.
  - apply failureNotice_includes.
  - rewrite Ht. views. by rewrite Hr, app_nil_r.
  - rewrite Ht, Ht1. views.
    by rewrite Ha1, Ha.
  - rewrite Ht, Ht1. views.
    by rewrite Hs1, Hs.
Qed.

Lemma handleArticleFailure_keeps_queues X newArticle (caught : JS.Thrown) s :
  heap (snd (handleArticleFailure X newArticle caught s)) = heap s ∧
  queues (snd (handleArticleFailure X newArticle caught s)) = queues s.
Proof.
  destruct caught as [err|shown|].
  - destruct (JS.includes "limited" (JS.message err)) eqn:Hl.
    + by destruct (handleArticleFailure_limited X newArticle err s Hl)
        as (s' & -> & Hh & Hq & _).
    + by destruct (handleArticleFailure_other X newArticle err s Hl)
        as (r & s' & -> & Hh & Hq & _).
  - unfold handleArticleFailure, getChannel. unfold_monad.
    by destruct (recordFailure_run X newArticle "N/A" s)
      as (s1 & -> & Hh & Hq & _).
  - done.
Qed.

(** C3, as the code has it: every error raised while rendering, admitting
    or dispatching an article is caught by [deliver], and errors of the
    delivery-record write never leave the recorder.  A delivery whose
    attempt succeeds returns normally.  A delivery whose attempt fails,
    whatever was thrown and whether or not an exception leaves [deliver],
    has touched no queue.  When what was caught is an error with a message
    text, an exception can leave [deliver] from one place only, the message
    that the failure handler sends to the channel for an error of code
    50035 whose message does not contain "limited"; with the channel still
    in the cache, the exception is the one that send rejected with.  What
    [deliver] does with a caught value that has no message text is left
    open here. *)
Theorem deliver_throws_only_from_notice X this newArticle debug s :
  (is_Ok (fst (deliver_try X this newArticle debug s)) = false →
     heap (snd (deliver X this newArticle debug s)) = heap s ∧
     queues (snd (deliver X this newArticle debug s)) = queues s) ∧
  (is_Ok (fst (deliver_try X this newArticle debug s)) = true →
     fst (deliver X this newArticle debug s) = Ok tt) ∧
  ∀ e, fst (deliver X this newArticle debug s) = Throw e →
    ∃ (caught : JS.Thrown) s1,
      deliver_try X this newArticle debug s = (Throw caught, s1) ∧
      ∀ err, caught = JS.Err err →
        JS.code_is (JS.code_of err) 50035 = true ∧
        JS.includes "limited" (JS.message err) = false ∧
        ∀ channel,
          cache_get X (world s1) (feed_channel (feedObject newArticle))
            = Some channel →
          fst (send X channel (failureNotice newArticle err)
                 (world_after_record X
                    (failureData newArticle
                       (JS.or_default (JS.message err) "N/A"))
                    (world s1))) = Throw e.
Proof.
  unfold deliver, getChannel. unfold_monad.
  destruct (cache_get X (world s) _) as [channel0|].
  2: { by split_and!. }
  destruct (deliver_try X this newArticle debug s) as [[[]|caught] s1] eqn:Htry;
    [by split_and!|].
  destruct (deliver_try_throw _ _ _ _ _ _ _ Htry) as (Hh1 & Hq1 & _).
  pose proof (handleArticleFailure_keeps_queues X newArticle caught s1)
    as [Hh Hq].
  simpl. split_and!; [intros _; split; congruence | done |].
  intros e He. exists caught, s1. split; [done|].
  intros err ->.
  destruct (JS.includes "limited" (JS.message err)) eqn:Hl.
  - destruct (handleArticleFailure_limited X newArticle err s1 Hl)
      as (s' & Hrun & _).
    rewrite Hrun in He. done.
  - destruct (handleArticleFailure_other X newArticle err s1 Hl)
      as (r & s' & Hrun & _ & _ & delta & _ & _ & _ & _ & _ & _ & Hn).
    rewrite Hrun in He. simpl in He. subst r.
    destruct (JS.code_is _ _); simpl in Hn; [|by destruct Hn as [_ [=]]].
    split_and!; try done.
    intros channel Hc. rewrite Hc in Hn. by destruct Hn as [_ <-].
Qed.

(** *** Dispatch *)

Lemma queue_enqueue_existing queue newArticle am s channelID :
  registry_wf s →
  queues s !! channelID = Some queue →
  let s' := snd (queue_enqueue queue newArticle am s) in
  queue_entries s' channelID = queue_entries s channelID ++ [(newArticle, am)] ∧
  (∀ other, other ≠ channelID →
     queue_entries s' other = queue_entries s other) ∧
  registry_wf s'.
Proof.
  intros [Hb Hi] Hq. cbv zeta. unfold queue_entries, queue_enqueue. simpl.
  split_and!.
  - rewrite Hq, list_lookup_alter_eq.
    pose proof (Hb _ _ Hq) as Hlt. simpl in Hlt.
    apply lookup_lt_is_Some_2 in Hlt as [q ->]. done.
  - intros other Hne.
    destruct (queues s !! other) as [queue'|] eqn:Ho; [|done].
    rewrite list_lookup_alter_ne; [done|].
    intros ->. apply Hne. by eapply Hi.
  - split; simpl; [|done].
    eapply map_Forall_impl; [exact Hb|].
    intros ? ? ?. by rewrite length_alter.
Qed.

Lemma getQueueForChannel_run (channelID : string) s :
  registry_wf s →
  ∃ queue s1,
    getQueueForChannel channelID s = (Ok queue, s1) ∧
    queues s1 !! channelID = Some queue ∧
    trace s1 = trace s ∧ world s1 = world s ∧
    registry_wf s1 ∧
    ∀ c, queue_entries s1 c = queue_entries s c.
Proof.
  intros Hwf.
  pose proof (getQueueForChannel_wf channelID s Hwf) as Hwf1.
  unfold getQueueForChannel in *.
  destruct (queues s !! channelID) as [queue|] eqn:Hq.
  - by exists queue, s.
  - eexists _, _. split; [reflexivity|]. simpl.
    rewrite lookup_insert_eq. split_and!; try done.
    intros c. unfold queue_entries. simpl.
    rewrite lookup_insert. case_decide.
    + subst c. by rewrite Hq, lookup_app_r, Nat.sub_diag.
    + destruct (queues s !! c) as [queue'|] eqn:Hq'; [|done].
      destruct Hwf as [Hb _]. pose proof (Hb _ _ Hq') as Hlt.
      simpl in Hlt. by rewrite lookup_app_l.
Qed.

(** C7: once the rate limiter has admitted an article, the pipeline
    dispatches it in one of two ways.  With a REST producer, and the medium
    and its payloads at hand, it hands the producer one request per
    payload, all of them whatever the others do, touches no queue, and
    fails exactly when one of the requests fails.  Without a REST
    producer it issues no request and appends the article to the queue of
    its channel, leaving the queues of the other channels as they were. *)
Theorem sendNewArticle_dispatch X this newArticle am s w1 :
  assertWithinLimits X am (world s) = (Ok tt, w1) →
  registry_wf s →
  let r := fst (sendNewArticle X this newArticle am s) in
  let s' := snd (sendNewArticle X this newArticle am s) in
  let channelID := feed_channel (feedObject newArticle) in
  match restProducer this with
  | Some producer =>
      ∀ medium w2 payloads,
        getMedium X am w1 = (Ok (Some medium), w2) →
        createAPIPayloads X am
          (if instanceof_Webhook medium
           then webhook (feedObject newArticle) else None) = Ok payloads →
        let rs := map (apiRequest X newArticle medium) payloads in
        requests (trace s') = requests (trace s) ++ rs ∧
        length rs = length payloads ∧
        is_Ok r = forallb is_Ok (enqueue_outcomes producer rs w2) ∧
        heap s' = heap s ∧ queues s' = queues s
  | None =>
      r = Ok tt ∧
      requests (trace s') = requests (trace s) ∧
      queue_entries s' channelID =
        queue_entries s channelID ++ [(newArticle, am)] ∧
      (∀ other, other ≠ channelID →
         queue_entries s' other = queue_entries s other) ∧
      registry_wf s'
  end.
Proof.
  intros Hlim Hwf. cbv zeta. unfold sendNewArticle. unfold_monad.
  rewrite Hlim. simpl.
  destruct (restProducer this) as [producer|] eqn:Hp.
  - intros medium w2 payloads Hmed Hpay.
    unfold sendToService. unfold_monad. rewrite Hmed. simpl.
    rewrite Hpay. simpl.
    rewrite <- (map_map (apiRequest X newArticle medium)
                        (restProducer_enqueue this)).
    match goal with |- context [Promise_all ?first _ ?st] =>
      destruct (Promise_all_enqueue first this producer
                  (map (apiRequest X newArticle medium) payloads) st Hp)
        as (r & s' & -> & Hh & Hq & Ht & Hok) end.
    simpl in *. rewrite length_map.
    assert (Hreq : ∀ d : list Event,
               requests (trace s' ++ d) =
               requests (trace s) ++
               map (apiRequest X newArticle medium) payloads ++ requests d).
    { intros d. rewrite Ht.
      pose proof (requests_map
        (map (apiRequest X newArticle medium) payloads)) as Hm.
      unfold requests in *. rewrite !omap_app, Hm.
      by rewrite <- !app_assoc. }
    destruct r as [l|e]; simpl.
    + split_and!; try done.
      rewrite Hreq. by rewrite app_nil_r.
    + split_and!; try done.
      rewrite <- (app_nil_r (trace s')), Hreq. by rewrite app_nil_r.
  - match goal with |- context [getQueueForChannel ?c ?st] =>
      destruct (getQueueForChannel_run c st Hwf)
        as (queue & s1 & -> & Hq1 & Ht1 & _ & Hwf1 & He1) end.
    destruct (queue_enqueue_existing queue newArticle am s1 _ Hwf1 Hq1)
      as (Hmine & Hothers & Hwf2).
    simpl in *. split_and!.
    + done.
    + rewrite Ht1. by views.
    + rewrite He1 in Hmine. exact Hmine.
    + intros other Hne. specialize (Hothers other Hne).
      rewrite He1 in Hothers. exact Hothers.
    + done.
Qed.

End Properties.


(** ** More of the pipeline: what a delivery does on every path *)

Lemma or_default_nonempty (m d : string) : d ≠ "" → JS.or_default m d ≠ "".
Proof.
  intros Hd. unfold JS.or_default.
  destruct (String.eqb_spec m ""); congruence.
Qed.

Section Coverage.

Context `{Sig}.
Implicit Types (X : Externals) (this : DeliveryPipeline).
Implicit Types (s : State) (newArticle : NewArticle) (err : JS.Error).

#[local] Arguments recordFailure : simpl never.
#[local] Arguments recordFilterBlock : simpl never.
#[local] Arguments sendToService : simpl never.
#[local] Arguments sendNewArticle : simpl never.
#[local] Arguments handleArticleFailure : simpl never.
#[local] Arguments handleArticleBlocked : simpl never.
#[local] Arguments deliver_try : simpl never.
#[local] Arguments Promise_all : simpl never.

Ltac run_monad :=
  unfold mbind, M_bind, mret, M_ret, try_catch, call, log, throw, sync,
    emit, set_world in *; simpl in *.

Ltac read_trace :=
  unfold saved, save_attempts, requests, notifications, limiter_calls,
    renderings, logged, attempted, stored in *;
  rewrite ?omap_app; simpl; rewrite ?app_nil_r, <- ?app_assoc; simpl.

(** The events of a trace that are requests make up its requests and
    nothing else. *)
Lemma omap_requests {A} (f : Event → option A) (rs : list Request) :
  (∀ r, f (EvRequest r) = None) → omap f (map EvRequest rs) = [].
Proof.
  intros Hf. induction rs as [|r rs IH]; simpl; [done|]. by rewrite Hf.
Qed.

Lemma apiRequest_for X newArticle medium (payload : Payload) :
  request_for newArticle (apiRequest X newArticle medium payload).
Proof. by destruct medium. Qed.

Lemma sendToService_shape X this newArticle am s :
  ∃ r s' rs,
    sendToService X this newArticle am s = (r, s') ∧
    heap s' = heap s ∧ queues s' = queues s ∧
    trace s' = trace s ++ EvGetMedium am :: map EvRequest rs ∧
    Forall (request_for newArticle) rs ∧
    (restProducer this = None → rs = []).
Proof.
  unfold sendToService. run_monad.
  destruct (getMedium X am (world s)) as [[[medium|]|e] w];
    simpl; try by (eexists _, _, []; split_and!).
  destruct (createAPIPayloads X am _) as [ps|e]; simpl;
    [|by (eexists _, _, []; split_and!; done)].
  rewrite <- (map_map (apiRequest X newArticle medium)
                      (restProducer_enqueue this)).
  destruct (restProducer this) as [producer|] eqn:Hp.
  - match goal with |- context [Promise_all ?first _ ?st] =>
      destruct (Promise_all_enqueue first this producer
                  (map (apiRequest X newArticle medium) ps) st Hp)
        as (r & s' & -> & Hh & Hq & Ht & _) end.
    simpl in *.
    exists r, s', (map (apiRequest X newArticle medium) ps).
    split_and!; try done.
    + rewrite Ht, <- app_assoc. reflexivity.
    + apply Forall_map, Forall_forall. intros p _. apply apiRequest_for.
  - rewrite Promise_all_no_producer by done.
    eexists _, _, []. by split_and!.
Qed.

Lemma sendNewArticle_shape X this newArticle am s :
  ∃ r s' d,
    sendNewArticle X this newArticle am s = (r, s') ∧
    trace s' = trace s ++ EvAssertWithinLimits am :: d ∧
    save_attempts d = [] ∧ notifications d = [] ∧ limiter_calls d = [] ∧
    renderings d = [] ∧ logged Warn d = [] ∧ logged Info d = [] ∧
    Forall (request_for newArticle) (requests d) ∧
    (restProducer this = None → requests d = []).
Proof.
  unfold sendNewArticle. run_monad.
  destruct (assertWithinLimits X am (world s)) as [[[]|e] w]; simpl;
    [|by (eexists _, _, []; split_and!)].
  destruct (restProducer this) as [producer|] eqn:Hp.
  - match goal with |- context [sendToService _ _ _ _ ?st] =>
      destruct (sendToService_shape X this newArticle am st)
        as (r & s' & rs & -> & _ & _ & Ht & Hrs & _) end.
    simpl in Ht.
    assert (Hv : ∀ tail : list Event,
      requests tail = [] → save_attempts tail = [] →
      notifications tail = [] → limiter_calls tail = [] →
      renderings tail = [] → logged Warn tail = [] → logged Info tail = [] →
      let d := EvGetMedium am :: map EvRequest rs ++ tail in
      save_attempts d = [] ∧ notifications d = [] ∧ limiter_calls d = [] ∧
      renderings d = [] ∧ logged Warn d = [] ∧ logged Info d = [] ∧
      Forall (request_for newArticle) (requests d) ∧
      (Some producer = None → requests d = [])).
    { intros tail H1 H2 H3 H4 H5 H6 H7. cbv zeta.
      pose proof (requests_map rs) as Hm.
      unfold saved, save_attempts, requests, notifications, limiter_calls,
        renderings, logged in *.
      cbn [omap list_omap]. rewrite !omap_app, !omap_requests by done.
      rewrite Hm, H1, H2, H3, H4, H5, H6, H7, !app_nil_r.
      by split_and!. }
    destruct r as [l|e]; simpl.
    + eexists _, _, _. split; [reflexivity|]. simpl. split.
      * rewrite Ht, <- !app_assoc. simpl. reflexivity.
      * by apply Hv.
    + eexists _, _, _. split; [reflexivity|]. split.
      * rewrite Ht, <- (app_nil_r (map EvRequest rs)), <- !app_assoc.
        simpl. reflexivity.
      * by apply Hv.
  - unfold getQueueForChannel, queue_enqueue. simpl.
    destruct (queues s !! _); simpl;
      (eexists _, _, _; split; [reflexivity|]; simpl; split;
       [rewrite <- app_assoc; reflexivity | by split_and!]).
Qed.

Lemma deliver_try_shape X this newArticle debug s :
  ∃ r s' d,
    deliver_try X this newArticle debug s = (r, s') ∧
    trace s' = trace s ++ d ∧
    renderings d = [(feedObject newArticle, article newArticle)] ∧
    length (limiter_calls d) ≤ 1 ∧ notifications d = [] ∧
    logged Warn d = [] ∧
    Forall (request_for newArticle) (requests d) ∧
    (restProducer this = None → requests d = []) ∧
    (save_attempts d = [] ∨
     r = Ok tt ∧ save_attempts d = attempted X (filterBlockData newArticle)).
Proof.
  unfold deliver_try, createArticleMessage. run_monad.
  destruct (ArticleMessage_create X _ _ debug (world s)) as [[am|e] w];
    simpl; [|eexists _, _, _; split; [reflexivity|]; simpl;
             split; [reflexivity|]; split_and!; auto].
  destruct (passedFilters X am); simpl.
  - match goal with |- context [sendNewArticle _ _ _ _ ?st] =>
      destruct (sendNewArticle_shape X this newArticle am st)
        as (r & s' & d & -> & Ht & Ha & Hn & Hl & Hr & Hw & Hi & Hq & Hp) end.
    simpl in Ht. eexists _, _, _. split; [reflexivity|]. split.
    { rewrite Ht, <- !app_assoc. simpl. reflexivity. }
    read_trace. unfold omap in *.
    rewrite Ha, Hn, Hl, Hr, Hw. simpl. split_and!; auto.
  - unfold handleArticleBlocked. run_monad.
    destruct (logFiltered this); simpl;
      match goal with |- context [recordFilterBlock _ _ ?st] =>
        destruct (recordFilterBlock_run X newArticle st)
          as (s' & -> & _ & _ & _ & d & Ht & Ha & _ & Hr & Hn & Hl & Hre & Hw & _)
      end; simpl in Ht;
      (eexists _, _, _; split; [reflexivity|]; split;
       [rewrite Ht, <- !app_assoc; simpl; reflexivity|]);
      read_trace; unfold omap in *; rewrite Ha, Hr, Hn, Hl, Hre, Hw; simpl;
      split_and!; auto.
Qed.

Lemma handleArticleFailure_shape X newArticle err s :
  ∃ r s' d,
    handleArticleFailure X newArticle err s = (r, s') ∧
    heap s' = heap s ∧ queues s' = queues s ∧
    trace s' = trace s ++ d ∧
    requests d = [] ∧ limiter_calls d = [] ∧ renderings d = [] ∧
    save_attempts d =
      attempted X (failureData newArticle
                     (JS.or_default (JS.message err) "N/A")) ∧
    length (notifications d) ≤ 1.
Proof.
  unfold handleArticleFailure, getChannel. run_monad.
  destruct (recordFailure_run X newArticle
              (JS.or_default (JS.message err) "N/A") s)
    as (s1 & -> & Hh & Hq & _ & d & Ht & Ha & _ & Hr & Hn & Hl & Hre & _).
  simpl.
  assert (Hv : ∀ tail : list Event,
    requests tail = [] → limiter_calls tail = [] → renderings tail = [] →
    save_attempts tail = [] → length (notifications tail) ≤ 1 →
    requests (d ++ tail) = [] ∧ limiter_calls (d ++ tail) = [] ∧
    renderings (d ++ tail) = [] ∧
    save_attempts (d ++ tail) =
      attempted X (failureData newArticle
                     (JS.or_default (JS.message err) "N/A")) ∧
    length (notifications (d ++ tail)) ≤ 1).
  { intros tail H1 H2 H3 H4 H5.
    unfold saved, save_attempts, requests, notifications, limiter_calls,
      renderings in *.
    rewrite !omap_app, H1, H2, H3, H4, Hr, Hl, Hre, Ha, Hn, !app_nil_r.
    by split_and!. }
  destruct (JS.includes "limited" (JS.message err)); simpl.
  { eexists _, _, _. split; [reflexivity|]. simpl.
    split; [done|]. split; [done|].
    split; [rewrite Ht, <- app_assoc; reflexivity|].
    apply Hv; simpl; auto. }
  destruct (JS.code_is _ _); simpl.
  2: { eexists _, _, _. split; [reflexivity|]. simpl.
    split; [done|]. split; [done|].
    split; [rewrite Ht, <- app_assoc; reflexivity|].
    apply Hv; simpl; auto. }
  destruct (cache_get X (world s) _) as [c|]; simpl.
  - destruct (send X c _ (world s1)) as [r w]. simpl.
    eexists _, _, _. split; [reflexivity|]. simpl.
    split; [done|]. split; [done|].
    split; [rewrite Ht, <- !app_assoc; reflexivity|].
    apply Hv; simpl; auto.
  - eexists _, _, _. split; [reflexivity|]. simpl.
    split; [done|]. split; [done|].
    split; [rewrite Ht, <- app_assoc; reflexivity|].
    apply Hv; simpl; auto.
Qed.

Lemma handleArticleFailure_any X newArticle (caught : JS.Thrown) s :
  ∃ r s' d,
    handleArticleFailure X newArticle caught s = (r, s') ∧
    heap s' = heap s ∧ queues s' = queues s ∧
    trace s' = trace s ++ d ∧
    requests d = [] ∧ limiter_calls d = [] ∧ renderings d = [] ∧
    (save_attempts d = [] ∨
     ∃ err : JS.Error, save_attempts d =
       attempted X (failureData newArticle
                      (JS.or_default (JS.message err) "N/A"))) ∧
    length (notifications d) ≤ 1.
Proof.
  destruct caught as [err|shown|].
  - destruct (handleArticleFailure_shape X newArticle err s)
      as (r & s' & d & Hrun & Hh & Hq & Ht & Hr & Hl & Hre & Ha & Hn).
    exists r, s', d. split_and!; eauto.
  - unfold handleArticleFailure, getChannel. run_monad.
    destruct (recordFailure_run X newArticle "N/A" s)
      as (s1 & -> & Hh & Hq & _ & d & Ht & Ha & _ & Hr & Hn & Hl & Hre & _).
    simpl. exists (Throw (JS.Err (JS.TypeError "includes"))), s1, d.
    split_and!; try done.
    + right. by exists (JS.new_Error "").
    + rewrite Hn. simpl. lia.
  - exists (Throw (JS.Err (JS.TypeError "message"))), s, [].
    rewrite app_nil_r. simpl. split_and!; auto.
Qed.

Lemma deliver_shape X this newArticle debug s :
  ∃ r s' delta,
    deliver X this newArticle debug s = (r, s') ∧
    trace s' = trace s ++ delta ∧
    length (renderings delta) ≤ 1 ∧
    length (limiter_calls delta) ≤ 1 ∧
    length (notifications delta) ≤ 1 ∧
    Forall (request_for newArticle) (requests delta) ∧
    (restProducer this = None → requests delta = []) ∧
    (save_attempts delta = [] ∨
     save_attempts delta = attempted X (filterBlockData newArticle) ∨
     ∃ err, save_attempts delta =
       attempted X (failureData newArticle
                      (JS.or_default (JS.message err) "N/A"))).
Proof.
  unfold deliver, getChannel. run_monad.
  destruct (cache_get X (world s) _) as [channel0|].
  2: { exists (Ok tt), s, []. rewrite app_nil_r. simpl.
       split_and!; auto. }
  destruct (deliver_try_shape X this newArticle debug s)
    as (r & s1 & d1 & -> & Ht1 & Hre1 & Hl1 & Hn1 & _ & Hq1 & Hp1 & Ha1).
  destruct r as [[]|err].
  - exists (Ok tt), s1, d1. rewrite Hre1, Hn1. simpl.
    split_and!; auto. destruct Ha1 as [->|[_ ->]]; auto.
  - destruct Ha1 as [Ha1|[[=] _]].
    destruct (handleArticleFailure_any X newArticle err s1)
      as (r & s' & d2 & -> & _ & _ & Ht2 & Hq2 & Hl2 & Hre2 & Ha2 & Hn2).
    exists r, s', (d1 ++ d2). split; [done|].
    split; [by rewrite Ht2, Ht1, <- app_assoc|].
    unfold saved, save_attempts, requests, notifications, limiter_calls,
      renderings in *.
    rewrite !omap_app, Hre1, Hre2, Hl2, Hn1, Hq2, Ha1, !app_nil_r.
    simpl. split_and!; eauto.
    destruct Ha2 as [->|[e ->]]; eauto.
Qed.

(** X1: a delivery writes at most one delivery record, and only ever an
    undelivered one: whatever [deliver] tries to store names the article,
    its feed and its channel, is marked not delivered and has a comment.
    Without a database it writes none. *)
Theorem deliver_writes_at_most_one_failure_record X this newArticle debug s :
  ∃ delta,
    trace (snd (deliver X this newArticle debug s)) = trace s ++ delta ∧
    length (save_attempts delta) ≤ 1 ∧
    Forall (record_for newArticle) (save_attempts delta) ∧
    (isMongoDatabase X = false → save_attempts delta = []).
Proof.
  destruct (deliver_shape X this newArticle debug s)
    as (r & s' & delta & -> & Ht & _ & _ & _ & _ & _ & Ha).
  exists delta. split; [done|]. unfold attempted in Ha.
  destruct Ha as [->|[->|[err ->]]]; destruct (isMongoDatabase X); simpl;
    split_and!; try done; try lia; auto.
  - apply Forall_singleton. by split_and!.
  - apply Forall_singleton. split_and!; try done. simpl.
    by apply or_default_nonempty.
Qed.

(** X2: every request a delivery hands to the REST producer is a POST to
    the Discord API that carries the article's id, the feed's URL and the
    channel as metadata; a pipeline without a REST producer issues none. *)
Theorem deliver_requests_belong_to_the_article X this newArticle debug s :
  ∃ delta,
    trace (snd (deliver X this newArticle debug s)) = trace s ++ delta ∧
    Forall (request_for newArticle) (requests delta) ∧
    (restProducer this = None → requests delta = []).
Proof.
  destruct (deliver_shape X this newArticle debug s)
    as (r & s' & delta & -> & Ht & _ & _ & _ & Hq & Hp & _).
  by exists delta.
Qed.

(** X3: in one delivery the article is rendered at most once, the rate
    limiter is asked at most once, and at most one message is sent to the
    channel. *)
Theorem deliver_calls_each_service_at_most_once X this newArticle debug s :
  ∃ delta,
    trace (snd (deliver X this newArticle debug s)) = trace s ++ delta ∧
    length (renderings delta) ≤ 1 ∧
    length (limiter_calls delta) ≤ 1 ∧
    length (notifications delta) ≤ 1.
Proof.
  destruct (deliver_shape X this newArticle debug s)
    as (r & s' & delta & -> & Ht & Hre & Hl & Hn & _).
  by exists delta.
Qed.

(** *** Queues *)

Lemma queue_entries_frame s s' (c : string) :
  heap s' = heap s → queues s' = queues s →
  queue_entries s' c = queue_entries s c.
Proof. intros Hh Hq. unfold queue_entries. by rewrite Hh, Hq. Qed.

Lemma registry_wf_frame s s' :
  heap s' = heap s → queues s' = queues s → registry_wf s → registry_wf s'.
Proof. intros Hh Hq. unfold registry_wf. by rewrite Hh, Hq. Qed.

Lemma constructed_wf (w : World) : registry_wf (constructed w).
Proof.
  split.
  - apply map_Forall_empty.
  - intros c1 c2 queue Hc. simpl in Hc. by rewrite lookup_empty in Hc.
Qed.

Lemma sendNewArticle_queued_run X this newArticle am s w1 :
  restProducer this = None →
  assertWithinLimits X am (world s) = (Ok tt, w1) →
  registry_wf s →
  ∃ s',
    sendNewArticle X this newArticle am s = (Ok tt, s') ∧
    world s' = w1 ∧ registry_wf s' ∧
    queue_entries s' (feed_channel (feedObject newArticle)) =
      queue_entries s (feed_channel (feedObject newArticle))
      ++ [(newArticle, am)] ∧
    (∀ other, other ≠ feed_channel (feedObject newArticle) →
       queue_entries s' other = queue_entries s other) ∧
    ∃ line, trace s' =
      trace s ++ [EvAssertWithinLimits am;
                  EvLog {| level := Debug; bindings := NoBindings;
                           msg := line |}].
Proof.
  intros Hp Hlim Hwf. unfold sendNewArticle. run_monad.
  rewrite Hlim, Hp. simpl.
  match goal with |- context [getQueueForChannel ?c ?st] =>
    destruct (getQueueForChannel_run c st Hwf)
      as (queue & s1 & -> & Hq1 & Ht1 & Hw1 & Hwf1 & He1) end.
  destruct (queue_enqueue_existing queue newArticle am s1 _ Hwf1 Hq1)
    as (Hmine & Hothers & Hwf2).
  simpl in *. eexists. split; [reflexivity|]. simpl. split_and!.
  - done.
  - done.
  - rewrite He1 in Hmine. exact Hmine.
  - intros other Hne. specialize (Hothers other Hne).
    rewrite He1 in Hothers. exact Hothers.
  - eexists. rewrite Ht1. simpl. rewrite <- app_assoc. reflexivity.
Qed.

Lemma sendNewArticle_queues X this newArticle am s :
  registry_wf s →
  let s' := snd (sendNewArticle X this newArticle am s) in
  let channelID := feed_channel (feedObject newArticle) in
  registry_wf s' ∧
  (∀ other, other ≠ channelID →
     queue_entries s' other = queue_entries s other) ∧
  (queue_entries s' channelID = queue_entries s channelID ∨
   queue_entries s' channelID =
     queue_entries s channelID ++ [(newArticle, am)]).
Proof.
  intros Hwf. cbv zeta.
  destruct (assertWithinLimits X am (world s)) as [[[]|e] w] eqn:Hlim.
  - destruct (restProducer this) as [producer|] eqn:Hp.
    + unfold sendNewArticle. run_monad. rewrite Hlim, Hp. simpl.
      match goal with |- context [sendToService _ _ _ _ ?st] =>
        destruct (sendToService_frame X this newArticle am st)
          as (r & s' & delta & -> & Hh & Hq & _) end.
      simpl in Hh, Hq.
      assert (Hfr : ∀ s2, heap s2 = heap s' → queues s2 = queues s' →
        registry_wf s2 ∧
        (∀ other, other ≠ feed_channel (feedObject newArticle) →
           queue_entries s2 other = queue_entries s other) ∧
        (queue_entries s2 (feed_channel (feedObject newArticle)) =
           queue_entries s (feed_channel (feedObject newArticle)) ∨
         queue_entries s2 (feed_channel (feedObject newArticle)) =
           queue_entries s (feed_channel (feedObject newArticle))
           ++ [(newArticle, am)])).
      { intros s2 Hh2 Hq2. split_and!.
        - eapply registry_wf_frame; [| |exact Hwf]; congruence.
        - intros other _. apply queue_entries_frame; congruence.
        - left. apply queue_entries_frame; congruence. }
      destruct r; simpl; by apply Hfr.
    + destruct (sendNewArticle_queued_run X this newArticle am s w Hp Hlim Hwf)
        as (s' & -> & _ & Hwf' & Hmine & Hothers & _).
      simpl. auto.
  - unfold sendNewArticle. run_monad. rewrite Hlim. simpl. split_and!.
    + exact Hwf.
    + done.
    + by left.
Qed.

Lemma deliver_try_queues X this newArticle debug s :
  registry_wf s →
  let s' := snd (deliver_try X this newArticle debug s) in
  let channelID := feed_channel (feedObject newArticle) in
  registry_wf s' ∧
  (∀ other, other ≠ channelID →
     queue_entries s' other = queue_entries s other) ∧
  (queue_entries s' channelID = queue_entries s channelID ∨
   ∃ am, queue_entries s' channelID =
     queue_entries s channelID ++ [(newArticle, am)]).
Proof.
  intros Hwf. cbv zeta. unfold deliver_try, createArticleMessage. run_monad.
  destruct (ArticleMessage_create X _ _ debug (world s)) as [[am|e] w];
    simpl; [|by split_and!; auto].
  destruct (passedFilters X am); simpl.
  - match goal with |- context [sendNewArticle _ _ _ _ ?st] =>
      destruct (sendNewArticle_queues X this newArticle am st Hwf)
        as (Hwf' & Hothers & Hmine) end.
    split_and!; [exact Hwf'|exact Hothers|].
    destruct Hmine as [Hm|Hm]; [left; exact Hm|right; exists am; exact Hm].
  - unfold handleArticleBlocked. run_monad.
    destruct (logFiltered this); simpl;
      match goal with |- context [recordFilterBlock _ _ ?st] =>
        destruct (recordFilterBlock_run X newArticle st)
          as (s' & -> & Hh & Hq & _) end;
      simpl in *; split_and!.
    + eapply registry_wf_frame; [| |exact Hwf]; done.
    + intros other _. by apply queue_entries_frame.
    + left. by apply queue_entries_frame.
    + eapply registry_wf_frame; [| |exact Hwf]; done.
    + intros other _. by apply queue_entries_frame.
    + left. by apply queue_entries_frame.
Qed.

(** X4: a delivery never loses or reorders what is waiting in a queue.
    Starting from a well-formed registry, [deliver] leaves the registry well
    formed, leaves the queues of all other channels as they were, and the
    queue of the article's channel either as it was or with this one
    article appended at the end. *)
Theorem deliver_keeps_queued_articles X this newArticle debug s :
  registry_wf s →
  let s' := snd (deliver X this newArticle debug s) in
  let channelID := feed_channel (feedObject newArticle) in
  registry_wf s' ∧
  (∀ other, other ≠ channelID →
     queue_entries s' other = queue_entries s other) ∧
  (queue_entries s' channelID = queue_entries s channelID ∨
   ∃ am, queue_entries s' channelID =
     queue_entries s channelID ++ [(newArticle, am)]).
Proof.
  intros Hwf. cbv zeta. unfold deliver, getChannel. run_monad.
  destruct (cache_get X (world s) _) as [channel0|]; [|by split_and!; auto].
  destruct (deliver_try_queues X this newArticle debug s Hwf)
    as (Hwf1 & Hothers & Hmine).
  destruct (deliver_try X this newArticle debug s) as [[[]|err] s1];
    simpl in *; [by split_and!|].
  destruct (handleArticleFailure_any X newArticle err s1)
    as (r & s' & d & -> & Hh & Hq & _).
  simpl. split_and!.
  - by eapply registry_wf_frame.
  - intros other Hne. rewrite <- (Hothers other Hne).
    by apply queue_entries_frame.
  - rewrite (queue_entries_frame s1 s' _ Hh Hq). exact Hmine.
Qed.

(** *** Single paths *)

(** X5: whatever error the rate limiter rejects an article with, nothing is
    dispatched: no request is issued and no queue is touched.  The limiter
    is asked once, and the rejection goes to the failure handler, which
    writes its record (with a database) under the error's message, or
    "N/A". *)
Theorem deliver_limiter_rejection X this newArticle debug s channel am w1 err w2 :
  cache_get X (world s) (feed_channel (feedObject newArticle)) = Some channel →
  ArticleMessage_create X (feedObject newArticle) (article newArticle) debug
    (world s) = (Ok am, w1) →
  passedFilters X am = true →
  assertWithinLimits X am w1 = (Throw err, w2) →
  let s' := snd (deliver X this newArticle debug s) in
  requests (trace s') = requests (trace s) ∧
  heap s' = heap s ∧ queues s' = queues s ∧
  limiter_calls (trace s') = limiter_calls (trace s) ++ [am] ∧
  save_attempts (trace s') =
    save_attempts (trace s) ++
    attempted X (failureData newArticle (JS.or_default (JS.message err) "N/A")).
Proof.
  intros Hc Hcreate Hpass Hlim. cbv zeta.
  unfold deliver, getChannel, deliver_try, createArticleMessage,
    sendNewArticle.
  run_monad. rewrite Hc, Hcreate. simpl. rewrite Hpass. simpl.
  rewrite Hlim. simpl.
  match goal with |- context [handleArticleFailure _ _ _ ?st] =>
    destruct (handleArticleFailure_shape X newArticle err st)
      as (r & s' & d & -> & Hh & Hq & Ht & Hr & Hl & _ & Ha & _) end.
  simpl in *. split_and!; try done.
  - rewrite Ht. read_trace. by rewrite Hr, ?app_nil_r.
  - rewrite Ht. read_trace. by rewrite Hl, ?app_nil_r.
  - rewrite Ht. read_trace. by rewrite Ha.
Qed.

(** X6: when rendering the article fails, the rate limiter is never asked
    and nothing is dispatched; the error goes to the failure handler, which
    writes its record (with a database) under the error's message, or
    "N/A". *)
Theorem deliver_render_failure X this newArticle debug s channel err w1 :
  cache_get X (world s) (feed_channel (feedObject newArticle)) = Some channel →
  ArticleMessage_create X (feedObject newArticle) (article newArticle) debug
    (world s) = (Throw err, w1) →
  let s' := snd (deliver X this newArticle debug s) in
  limiter_calls (trace s') = limiter_calls (trace s) ∧
  requests (trace s') = requests (trace s) ∧
  heap s' = heap s ∧ queues s' = queues s ∧
  save_attempts (trace s') =
    save_attempts (trace s) ++
    attempted X (failureData newArticle (JS.or_default (JS.message err) "N/A")).
Proof.
  intros Hc Hcreate. cbv zeta.
  unfold deliver, getChannel, deliver_try, createArticleMessage.
  run_monad. rewrite Hc, Hcreate. simpl.
  match goal with |- context [handleArticleFailure _ _ _ ?st] =>
    destruct (handleArticleFailure_shape X newArticle err st)
      as (r & s' & d & -> & Hh & Hq & Ht & Hr & Hl & _ & Ha & _) end.
  simpl in *. split_and!; try done.
  - rewrite Ht. read_trace. by rewrite Hl, ?app_nil_r.
  - rewrite Ht. read_trace. by rewrite Hr, ?app_nil_r.
  - rewrite Ht. read_trace. by rewrite Ha.
Qed.

(** X7: without a REST producer, an article that passes the filters and the
    rate limiter is appended to the queue of its channel and [deliver]
    returns normally; no request is issued, nothing is sent to the channel
    and no delivery record is written at this point. *)
Theorem deliver_enqueues_admitted_article X this newArticle debug s channel
    am w1 w2 :
  cache_get X (world s) (feed_channel (feedObject newArticle)) = Some channel →
  ArticleMessage_create X (feedObject newArticle) (article newArticle) debug
    (world s) = (Ok am, w1) →
  passedFilters X am = true →
  restProducer this = None →
  assertWithinLimits X am w1 = (Ok tt, w2) →
  registry_wf s →
  let s' := snd (deliver X this newArticle debug s) in
  let channelID := feed_channel (feedObject newArticle) in
  fst (deliver X this newArticle debug s) = Ok tt ∧
  queue_entries s' channelID = queue_entries s channelID ++ [(newArticle, am)] ∧
  (∀ other, other ≠ channelID →
     queue_entries s' other = queue_entries s other) ∧
  registry_wf s' ∧
  requests (trace s') = requests (trace s) ∧
  notifications (trace s') = notifications (trace s) ∧
  save_attempts (trace s') = save_attempts (trace s).
Proof.
  intros Hc Hcreate Hpass Hp Hlim Hwf. cbv zeta.
  unfold deliver, getChannel, deliver_try, createArticleMessage.
  run_monad. rewrite Hc, Hcreate. simpl. rewrite Hpass. simpl.
  match goal with |- context [sendNewArticle _ _ _ _ ?st] =>
    destruct (sendNewArticle_queued_run X this newArticle am st w2 Hp Hlim Hwf)
      as (s' & -> & _ & Hwf' & Hmine & Hothers & line & Ht) end.
  simpl in *. split_and!; try done; rewrite Ht; by read_trace.
Qed.

(** X8: with a REST producer, when the medium and the payloads are at hand
    and every request is accepted, [deliver] returns normally having issued
    exactly the requests of the payloads, in their order; it writes no
    delivery record, sends nothing to the channel and touches no queue. *)
Theorem deliver_sends_admitted_article X this newArticle debug s channel
    am w1 producer w2 medium w3 payloads :
  cache_get X (world s) (feed_channel (feedObject newArticle)) = Some channel →
  ArticleMessage_create X (feedObject newArticle) (article newArticle) debug
    (world s) = (Ok am, w1) →
  passedFilters X am = true →
  restProducer this = Some producer →
  assertWithinLimits X am w1 = (Ok tt, w2) →
  getMedium X am w2 = (Ok (Some medium), w3) →
  createAPIPayloads X am
    (if instanceof_Webhook medium
     then webhook (feedObject newArticle) else None) = Ok payloads →
  forallb is_Ok
    (enqueue_outcomes producer
       (map (apiRequest X newArticle medium) payloads) w3) = true →
  let s' := snd (deliver X this newArticle debug s) in
  fst (deliver X this newArticle debug s) = Ok tt ∧
  requests (trace s') =
    requests (trace s) ++ map (apiRequest X newArticle medium) payloads ∧
  save_attempts (trace s') = save_attempts (trace s) ∧
  notifications (trace s') = notifications (trace s) ∧
  heap s' = heap s ∧ queues s' = queues s.
Proof.
  intros Hc Hcreate Hpass Hp Hlim Hmed Hpay Hall. cbv zeta.
  unfold deliver, getChannel, deliver_try, createArticleMessage,
    sendNewArticle, sendToService.
  run_monad. rewrite Hc, Hcreate. simpl. rewrite Hpass. simpl.
  rewrite Hlim, Hp. simpl. rewrite Hmed. simpl. rewrite Hpay. simpl.
  rewrite <- (map_map (apiRequest X newArticle medium)
                      (restProducer_enqueue this)).
  match goal with |- context [Promise_all ?first _ ?st] =>
    destruct (Promise_all_enqueue first this producer
                (map (apiRequest X newArticle medium) payloads) st Hp)
      as (r & s' & -> & Hh & Hq & Ht & Hok) end.
  simpl in *. rewrite Hall in Hok. destruct r as [l|e]; [|done]. simpl.
  pose proof (requests_map (map (apiRequest X newArticle medium) payloads))
    as Hm.
  pose proof (silent_requests (map (apiRequest X newArticle medium) payloads))
    as (Hsa & _ & Hsn).
  split_and!; try done; rewrite Ht.
  - unfold requests in *. rewrite !omap_app, Hm. simpl.
    by rewrite !app_nil_r.
  - unfold save_attempts in *. rewrite !omap_app, Hsa. simpl.
    by rewrite !app_nil_r.
  - unfold notifications in *. rewrite !omap_app, Hsn. simpl.
    by rewrite !app_nil_r.
Qed.

(** X9: queued articles keep the order in which they were admitted.  Two
    articles admitted one after the other by a pipeline without a REST
    producer end up, first then second, at the end of their channel's queue
    when they share a channel, and each at the end of its own queue when
    they do not. *)
Theorem queued_articles_keep_their_order X this first am1 second am2 s w1 w2 :
  restProducer this = None →
  registry_wf s →
  assertWithinLimits X am1 (world s) = (Ok tt, w1) →
  assertWithinLimits X am2 w1 = (Ok tt, w2) →
  let s1 := snd (sendNewArticle X this first am1 s) in
  let s2 := snd (sendNewArticle X this second am2 s1) in
  let c1 := feed_channel (feedObject first) in
  let c2 := feed_channel (feedObject second) in
  if decide (c1 = c2)
  then queue_entries s2 c1 =
         queue_entries s c1 ++ [(first, am1); (second, am2)]
  else queue_entries s2 c1 = queue_entries s c1 ++ [(first, am1)] ∧
       queue_entries s2 c2 = queue_entries s c2 ++ [(second, am2)].
Proof.
  intros Hp Hwf Hl1 Hl2. cbv zeta.
  destruct (sendNewArticle_queued_run X this first am1 s w1 Hp Hl1 Hwf)
    as (s1 & -> & Hw1 & Hwf1 & Hmine1 & Hothers1 & _).
  simpl. rewrite <- Hw1 in Hl2.
  destruct (sendNewArticle_queued_run X this second am2 s1 w2 Hp Hl2 Hwf1)
    as (s2 & -> & _ & _ & Hmine2 & Hothers2 & _).
  simpl. case_decide as Hc.
  - rewrite <- Hc in Hmine2. by rewrite Hmine2, Hmine1, <- app_assoc.
  - split.
    + by rewrite Hothers2, Hmine1.
    + rewrite Hmine2, Hothers1; [done|]. congruence.
Qed.

(** X10: two different channels never share a queue.  From a well-formed
    registry, the queues [getQueueForChannel] returns for two different
    channels are different objects, and the registry maps each channel to
    its own. *)
Theorem distinct_channels_get_distinct_queues (c1 c2 : string) s :
  registry_wf s → c1 ≠ c2 →
  ∃ q1 s1 q2 s2,
    getQueueForChannel c1 s = (Ok q1, s1) ∧
    getQueueForChannel c2 s1 = (Ok q2, s2) ∧
    q1 ≠ q2 ∧
    queues s2 !! c1 = Some q1 ∧ queues s2 !! c2 = Some q2.
Proof.
  intros Hwf Hne.
  destruct (getQueueForChannel_run c1 s Hwf)
    as (q1 & s1 & Hg1 & Hq1 & _ & _ & Hwf1 & _).
  destruct (getQueueForChannel_run c2 s1 Hwf1)
    as (q2 & s2 & Hg2 & Hq2 & _ & _ & Hwf2 & _).
  exists q1, s1, q2, s2.
  assert (Hq1' : queues s2 !! c1 = Some q1).
  { unfold getQueueForChannel in Hg2.
    destruct (queues s1 !! c2) as [q|] eqn:E; injection Hg2 as <- <-;
      [done|].
    simpl. by rewrite lookup_insert_ne. }
  split_and!; try done.
  intros ->. destruct Hwf2 as [_ Hi]. apply Hne. by eapply Hi.
Qed.

(** *** The failure handler and the filter block *)

(** X11: a failure of code 50035 whose channel has left the cache by the
    time it is handled is still recorded and logged at warning level, but
    no message can be sent: the handler throws instead of returning. *)
Theorem handleArticleFailure_channel_gone X newArticle err s :
  JS.code_is (JS.code_of err) 50035 = true →
  JS.includes "limited" (JS.message err) = false →
  cache_get X (world s) (feed_channel (feedObject newArticle)) = None →
  let s' := snd (handleArticleFailure X newArticle err s) in
  is_Ok (fst (handleArticleFailure X newArticle err s)) = false ∧
  notifications (trace s') = notifications (trace s) ∧
  logged Warn (trace s') =
    logged Warn (trace s) ++
    [{| level := Warn; bindings := BindError err;
        msg := failureWarning newArticle |}] ∧
  save_attempts (trace s') =
    save_attempts (trace s) ++
    attempted X (failureData newArticle (JS.or_default (JS.message err) "N/A")).
Proof.
  intros Hcode Hl Hc. cbv zeta.
  destruct (handleArticleFailure_other X newArticle err s Hl)
    as (r & s' & -> & _ & _ & d & Ht & _ & _ & Ha & _ & Hw & Hn).
  rewrite Hcode, Hc in Hn. destruct Hn as [Hn ->]. simpl.
  split_and!; try done; rewrite Ht.
  - read_trace. by rewrite Hn, ?app_nil_r.
  - read_trace. by rewrite Hw.
  - read_trace. by rewrite Ha.
Qed.

(** X12: an error without a message text is recorded under the comment
    "N/A" and is never taken for a rate limit: it is logged at warning
    level. *)
Theorem failure_without_message X newArticle err s :
  JS.message err = "" →
  let s' := snd (handleArticleFailure X newArticle err s) in
  save_attempts (trace s') =
    save_attempts (trace s) ++ attempted X (failureData newArticle "N/A") ∧
  logged Warn (trace s') =
    logged Warn (trace s) ++
    [{| level := Warn; bindings := BindError err;
        msg := failureWarning newArticle |}].
Proof.
  intros Hm. cbv zeta.
  assert (Hl : JS.includes "limited" (JS.message err) = false)
    by (by rewrite Hm).
  destruct (handleArticleFailure_other X newArticle err s Hl)
    as (r & s' & -> & _ & _ & d & Ht & _ & _ & Ha & _ & Hw & _).
  rewrite Hm in Ha. simpl.
  split; rewrite Ht; read_trace.
  - by rewrite Ha.
  - by rewrite Hw.
Qed.

(** X13: a filtered article is never logged at warning level; it is logged
    at info level exactly when the pipeline was built with
    [log.unfiltered], in a line that names the article by its link, or by
    its title when the link is missing or empty. *)
Theorem blocked_article_logging X this newArticle debug s channel am w1 :
  cache_get X (world s) (feed_channel (feedObject newArticle)) = Some channel →
  ArticleMessage_create X (feedObject newArticle) (article newArticle) debug
    (world s) = (Ok am, w1) →
  passedFilters X am = false →
  let s' := snd (deliver X this newArticle debug s) in
  let name :=
    if JS.truthy (link (article newArticle))
    then JS.tpl (link (article newArticle))
    else JS.tpl (title (article newArticle)) in
  logged Warn (trace s') = logged Warn (trace s) ∧
  logged Info (trace s') =
    logged Info (trace s) ++
    (if logFiltered this
     then [{| level := Info; bindings := NoBindings;
              msg := "'" +:+ name
                     +:+ "' did not pass filters and was not sent" |}]
     else []).
Proof.
  intros Hc Hcreate Hpass. cbv zeta.
  unfold deliver, getChannel, deliver_try, createArticleMessage,
    handleArticleBlocked.
  run_monad. rewrite Hc, Hcreate. simpl. rewrite Hpass. simpl.
  destruct (logFiltered this); simpl;
    match goal with |- context [recordFilterBlock _ _ ?st] =>
      destruct (recordFilterBlock_run X newArticle st)
        as (s' & -> & _ & _ & _ & d & Ht & _ & _ & _ & _ & _ & _ & Hw & Hi)
    end; simpl in *; rewrite Ht; split; read_trace.
  - by rewrite Hw, ?app_nil_r.
  - rewrite Hi, ?app_nil_r. unfold JS.or.
    by destruct (JS.truthy (link (article newArticle))).
  - by rewrite Hw, ?app_nil_r.
  - by rewrite Hi, ?app_nil_r.
Qed.

(** X18: what is caught need not be an error.  On a value without a
    message (a thrown string, say) the handler records the failure under
    "N/A" and then throws, before any warning or debug line of its own and
    without a message to the channel.  On [null] or [undefined] it throws
    at once: nothing is recorded and nothing is logged. *)
Theorem handleArticleFailure_without_message_text X newArticle s
    (shown : string) :
  (let run := handleArticleFailure X newArticle (JS.Value shown) s in
   is_Ok (fst run) = false ∧
   save_attempts (trace (snd run)) =
     save_attempts (trace s) ++ attempted X (failureData newArticle "N/A") ∧
   log_lines (trace (snd run)) =
     log_lines (trace s) ++
     recordFailure_lines X newArticle "N/A" (world s) ∧
   notifications (trace (snd run)) = notifications (trace s)) ∧
  (let run := handleArticleFailure X newArticle JS.Nullish s in
   is_Ok (fst run) = false ∧ snd run = s).
Proof.
  split; [|done]. cbv zeta.
  unfold handleArticleFailure, getChannel. run_monad.
  pose proof (recordFailure_log_lines X newArticle "N/A" s) as Hlog.
  destruct (recordFailure_run X newArticle "N/A" s)
    as (s1 & Hrun & _ & _ & _ & d & Ht & Ha & _ & _ & Hn & _).
  rewrite Hrun in Hlog |- *. simpl in *. split_and!; try done.
  - rewrite Ht. read_trace. by rewrite Ha.
  - rewrite Ht. read_trace. by rewrite Hn, app_nil_r.
Qed.

End Coverage.

(** ** The test run of the schedules *)

Section ScheduleRunFacts.

Import ScheduleRun.

Context {Config ConnectionOptions Connection Schedule TestRuns Core : Type}.
Context {Sys : Type}.

Abbreviation Services :=
  (@Services Config ConnectionOptions Connection Schedule TestRuns Core Sys).
Abbreviation Machine :=
  (@Machine Config ConnectionOptions Connection Schedule TestRuns Core Sys).
Abbreviation RunSettings := (@RunSettings TestRuns).

Ltac run_script :=
  unfold testScheduleRun, service, console_log, mbind, Script_bind, mret,
    Script_ret; simpl.

(** X14: when the test run succeeds, it has made exactly nine calls, each
    on what the calls before it returned.  The configuration is set from
    the user's, then set again to what that returned; the database is
    connected with the URI and options of the configuration the second
    call returned; the models are set up on the connection obtained; the
    schedules are populated; a manager is built and its [testRuns] set from
    the run settings; that manager is given the populated schedules, and
    only then are its timers started.  It is that manager which is
    returned. *)
Theorem testScheduleRun_success (V : Services) (userConfig : Config)
    (runSettings : RunSettings) (m : Machine) manager :
  fst (testScheduleRun V userConfig runSettings m) = Ok manager →
  testRuns manager = run_testRuns runSettings ∧
  ∃ config1 y1 config2 y2 con y3 y4 schedules y5 built y6 y7 y8,
    setConfig V userConfig (sys m) = (Ok config1, y1) ∧
    setConfig V config1 y1 = (Ok config2, y2) ∧
    connectDatabase V (database_uri V config2) (database_connection V config2)
      y2 = (Ok con, y3) ∧
    setupModels V con y3 = (Ok tt, y4) ∧
    populateSchedules V y4 = (Ok schedules, y5) ∧
    new_ScheduleManager V y5 = (Ok built, y6) ∧
    manager =
      {| core := core built; testRuns := run_testRuns runSettings |} ∧
    addSchedules V manager schedules y6 = (Ok tt, y7) ∧
    beginTimers V manager y7 = (Ok tt, y8) ∧
    sys (snd (testScheduleRun V userConfig runSettings m)) = y8 ∧
    calls (snd (testScheduleRun V userConfig runSettings m)) =
      calls m ++
      [CallSetConfig userConfig;
       CallSetConfig config1;
       CallConnectDatabase (database_uri V config2)
                           (database_connection V config2);
       CallConsoleLog "Connected to database";
       CallSetupModels con;
       CallPopulateSchedules;
       CallNewScheduleManager;
       CallAddSchedules manager schedules;
       CallBeginTimers manager].
Proof.
  run_script.
  destruct (setConfig V userConfig (sys m)) as [[config1|e] y1] eqn:H1;
    [|done].
  simpl. destruct (setConfig V config1 y1) as [[config2|e] y2] eqn:H2;
    [|done].
  simpl. destruct (connectDatabase V _ _ y2) as [[con|e] y3] eqn:H3; [|done].
  simpl. destruct (setupModels V con y3) as [[[]|e] y4] eqn:H4; [|done].
  simpl. destruct (populateSchedules V y4) as [[schedules|e] y5] eqn:H5;
    [|done].
  simpl. destruct (new_ScheduleManager V y5) as [[built|e] y6] eqn:H6;
    [|done].
  simpl. destruct (addSchedules V _ schedules y6) as [[[]|e] y7] eqn:H7;
    [|done].
  simpl. destruct (beginTimers V _ y7) as [[[]|e] y8] eqn:H8; [|done].
  simpl. intros [= <-]. split; [done|].
  exists config1, y1, config2, y2, con, y3, y4, schedules, y5, built, y6, y7,
    y8.
  split_and!; try done. by rewrite <- !app_assoc.
Qed.

(** X15: when the test run fails, no timers were started, unless the
    failure is that of starting the timers itself, which is then the last
    call made. *)
Theorem testScheduleRun_failure (V : Services) (userConfig : Config)
    (runSettings : RunSettings) (m : Machine) e :
  fst (testScheduleRun V userConfig runSettings m) = Throw e →
  ∃ delta,
    calls (snd (testScheduleRun V userConfig runSettings m)) =
      calls m ++ delta ∧
    (begun delta = [] ∨
     ∃ before manager y,
       delta = before ++ [CallBeginTimers manager] ∧
       begun before = [] ∧
       fst (beginTimers V manager y) = Throw e).
Proof.
  run_script.
  destruct (setConfig V userConfig (sys m)) as [[config1|e1] y1]; simpl;
    [|intros _; eexists; split; [reflexivity|by left]].
  destruct (setConfig V config1 y1) as [[config2|e2] y2]; simpl;
    [|intros _; eexists; split; [rewrite <- !app_assoc; reflexivity|by left]].
  destruct (connectDatabase V _ _ y2) as [[con|e3] y3]; simpl;
    [|intros _; eexists; split; [rewrite <- !app_assoc; reflexivity|by left]].
  destruct (setupModels V con y3) as [[[]|e4] y4]; simpl;
    [|intros _; eexists; split; [rewrite <- !app_assoc; reflexivity|by left]].
  destruct (populateSchedules V y4) as [[schedules|e5] y5]; simpl;
    [|intros _; eexists; split; [rewrite <- !app_assoc; reflexivity|by left]].
  destruct (new_ScheduleManager V y5) as [[built|e6] y6]; simpl;
    [|intros _; eexists; split; [rewrite <- !app_assoc; reflexivity|by left]].
  destruct (addSchedules V _ schedules y6) as [[[]|e7] y7]; simpl;
    [|intros _; eexists; split; [rewrite <- !app_assoc; reflexivity|by left]].
  destruct (beginTimers V _ y7) as [[[]|e8] y8] eqn:Hb; simpl; [done|].
  intros [= ->].
  eexists. split; [rewrite <- !app_assoc; reflexivity|].
  right. eexists (_ :: _ :: _ :: _ :: _ :: _ :: _ :: [_]), _, y7.
  split_and!; [reflexivity|done|by rewrite Hb].
Qed.

(** X16: when the database cannot be connected, the run fails with the
    error of the connection and stops there: after the two configuration
    calls and the connection attempt nothing else is called, so no model is
    set up, no manager is created and no timer is started. *)
Theorem testScheduleRun_database_down (V : Services) (userConfig : Config)
    (runSettings : RunSettings) (m : Machine) config1 y1 config2 y2 e y3 :
  setConfig V userConfig (sys m) = (Ok config1, y1) →
  setConfig V config1 y1 = (Ok config2, y2) →
  connectDatabase V (database_uri V config2) (database_connection V config2) y2
    = (Throw e, y3) →
  fst (testScheduleRun V userConfig runSettings m) = Throw e ∧
  calls (snd (testScheduleRun V userConfig runSettings m)) =
    calls m ++
    [CallSetConfig userConfig;
     CallSetConfig config1;
     CallConnectDatabase (database_uri V config2)
                         (database_connection V config2)].
Proof.
  intros H1 H2 H3. run_script. rewrite H1. simpl. rewrite H2. simpl.
  rewrite H3. simpl. by rewrite <- !app_assoc.
Qed.

End ScheduleRunFacts.

(** ** Validation of the configuration *)

Lemma prefix_app_l (needle hay rest : string) :
  String.prefix needle hay = true →
  String.prefix needle (hay +:+ rest) = true.
Proof.
  revert hay. induction needle as [|a n IH]; intros hay.
  { intros _. destruct hay; [by destruct rest|done]. }
  destruct hay as [|b h]; [done|]. simpl.
  destruct (Ascii.ascii_dec a b); [apply IH|intros [=]].
Qed.

Lemma includes_app_l (needle hay rest : string) :
  JS.includes needle hay = true → JS.includes needle (hay +:+ rest) = true.
Proof.
  induction hay as [|b h IH]; simpl.
  - destruct needle; [|done]. intros _. by destruct rest.
  - intros [Hp|Hi]%orb_true_iff.
    + apply (prefix_app_l _ (String b h) rest) in Hp. simpl in Hp.
      by rewrite Hp.
    + rewrite (IH Hi). apply orb_true_r.
Qed.

Lemma includes_join (sep x : string) (l : list string) :
  x ∈ l → JS.includes x (ConfigSchema.join sep l) = true.
Proof.
  induction l as [|y l IH]; [by intros ?%elem_of_nil|].
  intros [->|Hin]%elem_of_cons.
  - destruct l as [|z l].
    + simpl. pose proof (includes_prefix y "") as Hp.
      assert (Hy : y +:+ "" = y).
      { clear. induction y as [|a y IH]; [done|].
        change (String a (y +:+ "") = String a y). by rewrite IH. }
      by rewrite Hy in Hp.
    + change (JS.includes y
                (y +:+ sep +:+ ConfigSchema.join sep (z :: l)) = true).
      apply includes_prefix.
  - destruct l as [|z l]; [by apply elem_of_nil in Hin|].
    change (JS.includes x
              (y +:+ sep +:+ ConfigSchema.join sep (z :: l)) = true).
    do 2 apply includes_app_r. by apply IH.
Qed.

(** X17: [validate] returns normally exactly when the schema reports no
    error.  Otherwise it throws an error whose message starts with "Bot
    config validation failed" and contains the message of every detail the
    schema reported, so that no complaint is lost. *)
Theorem validate_reports_every_detail {Config : Type}
    (schema_validate : Config → ConfigSchema.Result) (config : Config) :
  match ConfigSchema.error_details (schema_validate config) with
  | None => ConfigSchema.validate schema_validate config = Ok tt
  | Some details =>
      ∃ err : JS.Error,
        ConfigSchema.validate schema_validate config = Throw err ∧
        String.prefix "Bot config validation failed" (JS.message err) = true ∧
        ∀ d, d ∈ details →
          JS.includes (ConfigSchema.detail_message d) (JS.message err) = true
  end.
Proof.
  unfold ConfigSchema.validate.
  destruct (ConfigSchema.error_details (schema_validate config))
    as [details|]; [|done].
  eexists. split; [reflexivity|]. split; [done|].
  intros d Hd. unfold JS.new_Error. cbn [JS.message].
  unfold ConfigSchema.failure_text.
  do 3 apply includes_app_r. apply includes_app_l.
  apply includes_join.
  by apply (list_elem_of_fmap_2 ConfigSchema.detail_message).
Qed.

(** ** The pipeline at work

    The statements above, applied to the concrete installation. *)

#[local] Existing Instance Scenario.sig.
Import Scenario.

Lemma start_wf : registry_wf start.
Proof.
  split.
  - apply map_Forall_empty.
  - intros c1 c2 queue Hc. simpl in Hc. by rewrite lookup_empty in Hc.
Qed.

(** C6 at work: the channel has left the cache before the delivery starts. *)
Lemma deliver_missing_channel_witness :
  deliver (externals passing (with_cache_until 0 fine)) queued newArticle1
    false start = (Ok tt, start).
Proof. apply deliver_missing_channel. reflexivity. Defined.

(** C1: a rate-limited article is recorded as a failed delivery. *)
Lemma rate_limited_article_is_recorded :
  let X := externals passing (with_limiter (Throw rateLimited) fine) in
  let s' := snd (deliver X queued newArticle1 false start) in
  assertWithinLimits X passing 1 = (Throw rateLimited, 2) ∧
  JS.includes "limited" (JS.message rateLimited) = true ∧
  saved (trace s') = [failureData newArticle1 "Rate limited article"] ∧
  saved (trace s') ≠ saved (trace start).
Proof. vm_compute. by split_and!. Qed.

Lemma deliver_rate_limited_witness :
  let X := externals passing (with_limiter (Throw rateLimited) fine) in
  let s' := snd (deliver X queued newArticle1 false start) in
  fst (deliver X queued newArticle1 false start) = Ok tt ∧
  requests (trace s') = [] ∧ heap s' = [] ∧
  saved (trace s') = [failureData newArticle1 "Rate limited article"].
Proof.
  cbv zeta.
  destruct (deliver_rate_limited
              (externals passing (with_limiter (Throw rateLimited) fine))
              queued newArticle1 false start {| channel_id := "c1" |}
              passing 1 rateLimited 2
              eq_refl eq_refl eq_refl eq_refl eq_refl)
    as (Hr & Hreq & Hh & _ & _ & _ & _ & Hs).
  split_and!; [exact Hr | exact Hreq | exact Hh | exact Hs].
Defined.

(** C2: a medium that vanished before the dispatch is recorded as a failed
    delivery. *)
Lemma missing_medium_is_recorded :
  let k := with_medium None fine in
  let X := externals passing k in
  let s' := snd (deliver X (direct k) newArticle1 false start) in
  getMedium X passing 2 = (Ok None, 3) ∧
  fst (deliver X (direct k) newArticle1 false start) = Ok tt ∧
  saved (trace s') =
    [failureData newArticle1 "Missing medium to send article via service"] ∧
  saved (trace s') ≠ saved (trace start).
Proof. vm_compute. by split_and!. Qed.

Lemma deliver_missing_medium_witness :
  let k := with_medium None fine in
  let X := externals passing k in
  let s' := snd (deliver X (direct k) newArticle1 false start) in
  fst (deliver X (direct k) newArticle1 false start) = Ok tt ∧
  requests (trace s') = [] ∧
  saved (trace s') =
    [failureData newArticle1 "Missing medium to send article via service"].
Proof.
  cbv zeta.
  destruct (deliver_missing_medium
              (externals passing (with_medium None fine))
              (direct (with_medium None fine)) newArticle1 false start
              {| channel_id := "c1" |} passing 1
              (producer (with_medium None fine)) 2 3
              eq_refl eq_refl eq_refl eq_refl eq_refl eq_refl)
    as (Hr & Hreq & _ & _ & _ & _ & _ & Hs).
  split_and!; [exact Hr | exact Hreq | exact Hs].
Defined.

(** C3: the sink rejects the payload with code 50035 and the bot may not
    write to the channel, so the notification fails and its error leaves
    [deliver]. *)
Lemma deliver_can_throw :
  let k := with_notified (Throw missingPermissions)
             (with_enqueued (Throw invalidForm) fine) in
  fst (deliver (externals passing k) (direct k) newArticle1 false start)
    = Throw missingPermissions.
Proof. vm_compute. reflexivity. Qed.

Lemma deliver_throws_only_from_notice_witness :
  let k := with_notified (Throw missingPermissions)
             (with_enqueued (Throw invalidForm) fine) in
  let X := externals passing k in
  (heap (snd (deliver X (direct k) newArticle1 false start)) = [] ∧
   queues (snd (deliver X (direct k) newArticle1 false start)) = ∅) ∧
  ∃ s1,
    deliver_try X (direct k) newArticle1 false start
      = (Throw invalidForm, s1) ∧
    JS.code_is (JS.code_of invalidForm) 50035 = true ∧
    JS.includes "limited" (JS.message invalidForm) = false ∧
    fst (send X {| channel_id := "c1" |}
           (failureNotice newArticle1 invalidForm)
           (world_after_record X
              (failureData newArticle1 "Invalid Form Body") (world s1)))
      = Throw missingPermissions.
Proof.
  cbv zeta.
  destruct (deliver_throws_only_from_notice
              (externals passing
                 (with_notified (Throw missingPermissions)
                    (with_enqueued (Throw invalidForm) fine)))
              (direct (with_notified (Throw missingPermissions)
                         (with_enqueued (Throw invalidForm) fine)))
              newArticle1 false start)
    as (Hqueues & _ & Hthrow).
  split; [exact (Hqueues eq_refl)|].
  destruct (Hthrow missingPermissions eq_refl) as (caught & s1 & Htry & Herr).
  assert (Hcaught : caught = JS.Err invalidForm).
  { apply (f_equal fst) in Htry. vm_compute in Htry. by injection Htry. }
  subst caught. exists s1.
  destruct (Herr invalidForm eq_refl) as (Hcode & Hl & Hsend).
  split_and!; [exact Htry | exact Hcode | exact Hl |].
  apply (Hsend {| channel_id := "c1" |}).
  apply (f_equal snd) in Htry. simpl in Htry. rewrite <- Htry. reflexivity.
Defined.

(** C4: without a database a blocked article leaves no record, and with one
    the comment of the record is spelled "Blocked by filters". *)
Lemma blocked_article_record :
  let s1 := snd (deliver (externals blocked (with_mongo false fine)) queued
                   newArticle1 false start) in
  let s2 := snd (deliver (externals blocked fine) queued newArticle1 false
                   start) in
  passedFilters (externals blocked fine) blocked = false ∧
  saved (trace s1) = [] ∧
  map comment (saved (trace s2)) = ["Blocked by filters"] ∧
  map comment (saved (trace s2)) ≠ ["blocked by filters"].
Proof. vm_compute. by split_and!. Qed.

Lemma deliver_blocked_witness :
  let s' := snd (deliver (externals blocked fine) queued newArticle1 false
                   start) in
  fst (deliver (externals blocked fine) queued newArticle1 false start)
    = Ok tt ∧
  requests (trace s') = [] ∧ limiter_calls (trace s') = [] ∧ heap s' = [] ∧
  saved (trace s') = [filterBlockData newArticle1].
Proof.
  cbv zeta.
  destruct (deliver_blocked (externals blocked fine) queued newArticle1 false
              start {| channel_id := "c1" |} blocked 1
              eq_refl eq_refl eq_refl)
    as (Hr & Hreq & Hl & Hh & _ & _ & _ & Hs & _).
  split_and!; [exact Hr | exact Hreq | exact Hl | exact Hh | exact Hs].
Defined.

(** C5: a payload rejected with code 50035 leaves no record when there is no
    database, and is not reported to the channel when the text of the error
    happens to contain "limited". *)
Lemma bad_request_unrecorded_or_unnotified :
  let k1 := with_mongo false (with_enqueued (Throw invalidForm) fine) in
  let s1 := snd (deliver (externals passing k1) (direct k1) newArticle1 false
                   start) in
  let k2 := with_enqueued (Throw limitedForm) fine in
  let s2 := snd (deliver (externals passing k2) (direct k2) newArticle1 false
                   start) in
  (fst (deliver_try (externals passing k1) (direct k1) newArticle1 false start)
     = Throw invalidForm ∧
   JS.code_is (JS.code_of invalidForm) 50035 = true ∧
   saved (trace s1) = []) ∧
  (fst (deliver_try (externals passing k2) (direct k2) newArticle1 false start)
     = Throw limitedForm ∧
   JS.code_is (JS.code_of limitedForm) 50035 = true ∧
   notifications (trace s2) = []).
Proof. vm_compute. by split_and!. Qed.

Lemma deliver_bad_request_witness :
  let k := with_enqueued (Throw invalidForm) fine in
  let s' := snd (deliver (externals passing k) (direct k) newArticle1 false
                   start) in
  notifications (trace s') =
    [({| channel_id := "c1" |},
      "Failed to send article <https://example.com/1>.```Invalid Form Body```")] ∧
  fst (deliver (externals passing k) (direct k) newArticle1 false start)
    = Ok tt ∧
  saved (trace s') = [failureData newArticle1 "Invalid Form Body"].
Proof.
  cbv zeta.
  destruct (deliver_bad_request
              (externals passing (with_enqueued (Throw invalidForm) fine))
              (direct (with_enqueued (Throw invalidForm) fine))
              newArticle1 false start {| channel_id := "c1" |} invalidForm
              (snd (deliver_try
                      (externals passing
                         (with_enqueued (Throw invalidForm) fine))
                      (direct (with_enqueued (Throw invalidForm) fine))
                      newArticle1 false start))
              {| channel_id := "c1" |}
              eq_refl eq_refl eq_refl eq_refl eq_refl)
    as (Hn & _ & Hr & _ & _ & _ & _ & Hs & _).
  split_and!; [exact Hn | exact Hr | exact Hs].
Defined.

(** C7 at work: two payloads make two requests through the REST producer;
    without a producer the article waits in the queue of its channel. *)
Lemma sendNewArticle_dispatch_witness :
  let X := externals passing fine in
  let medium1 := MediumChannel {| channel_id := "c1" |} in
  requests (trace (snd (sendNewArticle X (direct fine) newArticle1 passing
                          start))) =
    [apiRequest X newArticle1 medium1 "{}";
     apiRequest X newArticle1 medium1 "{}"] ∧
  queue_entries (snd (sendNewArticle X queued newArticle1 passing start)) "c1"
    = [(newArticle1, passing)].
Proof.
  cbv zeta. split.
  - destruct (sendNewArticle_dispatch (externals passing fine) (direct fine)
                newArticle1 passing start 1 eq_refl start_wf
                (MediumChannel {| channel_id := "c1" |}) 2 ["{}"; "{}"]
                eq_refl eq_refl)
      as (Hreq & _).
    exact Hreq.
  - destruct (sendNewArticle_dispatch (externals passing fine) queued
                newArticle1 passing start 1 eq_refl start_wf)
      as (_ & _ & Hq & _).
    exact Hq.
Defined.

(** C8 at work: the database is down, the recorder logs and returns. *)
Lemma recording_is_fire_and_forget_witness :
  let X := externals passing (with_written (Throw databaseDown) fine) in
  fst (recordFailure X newArticle1 "Invalid Form Body" start) = Ok tt ∧
  saved (trace (snd (recordFailure X newArticle1 "Invalid Form Body" start)))
    = [] ∧
  recordFilterBlock (externals passing (with_mongo false fine)) newArticle1
    start = (Ok tt, start).
Proof.
  cbv zeta.
  destruct (recording_is_fire_and_forget
              (externals passing (with_written (Throw databaseDown) fine))
              newArticle1 "Invalid Form Body" start)
    as (_ & _ & Hthrow).
  destruct (Hthrow eq_refl) as (Hf & _).
  destruct (Hf databaseDown 1 eq_refl) as (Hr & Hs & _).
  destruct (recording_is_fire_and_forget
              (externals passing (with_mongo false fine))
              newArticle1 "" start)
    as (_ & Hoff & _).
  destruct (Hoff eq_refl) as (_ & Hb).
  split_and!; [exact Hr | exact Hs | exact Hb].
Defined.

(** C9 at work: the second call finds the queue the first one made. *)
Lemma getQueueForChannel_idempotent_witness :
  ∃ s1,
    getQueueForChannel "c1" start = (Ok 0, s1) ∧
    getQueueForChannel "c1" s1 = (Ok 0, s1) ∧
    heap s1 = [[]].
Proof.
  destruct (getQueueForChannel_idempotent "c1" start)
    as (queue & s1 & H1 & H2 & _ & _ & Hnew & _).
  destruct (Hnew eq_refl) as (-> & Hh).
  exists s1. split_and!; [exact H1 | exact H2 | exact Hh].
Defined.

(** ** More of the pipeline at work *)

Lemma deliver_keeps_queued_articles_witness :
  let X := externals passing fine in
  let Xlimited := externals passing (with_limiter (Throw rateLimited) fine) in
  let s1 := snd (deliver X queued newArticle3 false start) in
  let s2 := snd (deliver X queued newArticle1 false s1) in
  let s3 := snd (deliver Xlimited queued newArticle1 false s2) in
  queue_entries s1 "c3" = [(newArticle3, passing)] ∧
  queue_entries s2 "c3" = [(newArticle3, passing)] ∧
  queue_entries s2 "c1" = [(newArticle1, passing)] ∧
  queue_entries s3 "c3" = [(newArticle3, passing)] ∧
  queue_entries s3 "c1" = [(newArticle1, passing)] ∧
  registry_wf s3.
Proof.
  cbv zeta.
  destruct (deliver_keeps_queued_articles (externals passing fine) queued
              newArticle3 false start start_wf)
    as (Hwf1 & _ & Hmine1).
  destruct (deliver_keeps_queued_articles (externals passing fine) queued
              newArticle1 false _ Hwf1)
    as (Hwf2 & Hothers2 & Hmine2).
  destruct (deliver_keeps_queued_articles
              (externals passing (with_limiter (Throw rateLimited) fine))
              queued newArticle1 false _ Hwf2)
    as (Hwf3 & Hothers3 & Hmine3).
  assert (H13 : "c3" ≠ "c1") by discriminate.
  assert (E1 : queue_entries
                 (snd (deliver (externals passing fine) queued newArticle3
                         false start)) "c3" = [(newArticle3, passing)])
    by reflexivity.
  assert (E3 : queue_entries
                 (snd (deliver
                         (externals passing
                            (with_limiter (Throw rateLimited) fine))
                         queued newArticle1 false
                         (snd (deliver (externals passing fine) queued
                                 newArticle1 false
                                 (snd (deliver (externals passing fine) queued
                                         newArticle3 false start)))))) "c1"
               = [(newArticle1, passing)])
    by reflexivity.
  split_and!.
  - exact E1.
  - rewrite (Hothers2 "c3" H13). exact E1.
  - reflexivity.
  - rewrite (Hothers3 "c3" H13), (Hothers2 "c3" H13). exact E1.
  - exact E3.
  - exact Hwf3.
Defined.

Lemma deliver_limiter_rejection_witness :
  let X := externals passing (with_limiter (Throw databaseDown) fine) in
  let s' := snd (deliver X (direct fine) newArticle1 false start) in
  requests (trace s') = [] ∧ heap s' = [] ∧
  limiter_calls (trace s') = [passing] ∧
  save_attempts (trace s') = [failureData newArticle1 "connection refused"].
Proof.
  cbv zeta.
  destruct (deliver_limiter_rejection
              (externals passing (with_limiter (Throw databaseDown) fine))
              (direct fine) newArticle1 false start {| channel_id := "c1" |}
              passing 1 databaseDown 2 eq_refl eq_refl eq_refl eq_refl)
    as (Hr & Hh & _ & Hl & Ha).
  split_and!; [exact Hr | exact Hh | exact Hl | exact Ha].
Defined.

Lemma deliver_render_failure_witness :
  let X := unrenderable malformed fine in
  let s' := snd (deliver X (direct fine) newArticle1 false start) in
  limiter_calls (trace s') = [] ∧ requests (trace s') = [] ∧
  save_attempts (trace s') = [failureData newArticle1 "Unexpected token"].
Proof.
  cbv zeta.
  destruct (deliver_render_failure (unrenderable malformed fine) (direct fine)
              newArticle1 false start {| channel_id := "c1" |} malformed 1
              eq_refl eq_refl)
    as (Hl & Hr & _ & _ & Ha).
  split_and!; [exact Hl | exact Hr | exact Ha].
Defined.

Lemma deliver_enqueues_admitted_article_witness :
  let s' := snd (deliver (externals passing fine) queued newArticle1 false
                   start) in
  fst (deliver (externals passing fine) queued newArticle1 false start)
    = Ok tt ∧
  queue_entries s' "c1" = [(newArticle1, passing)] ∧
  save_attempts (trace s') = [].
Proof.
  cbv zeta.
  destruct (deliver_enqueues_admitted_article (externals passing fine) queued
              newArticle1 false start {| channel_id := "c1" |} passing 1 2
              eq_refl eq_refl eq_refl eq_refl eq_refl start_wf)
    as (Hr & Hq & _ & _ & _ & _ & Ha).
  split_and!; [exact Hr | exact Hq | exact Ha].
Defined.

Lemma deliver_sends_admitted_article_witness :
  let X := externals passing fine in
  let medium1 := MediumChannel {| channel_id := "c1" |} in
  let s' := snd (deliver X (direct fine) newArticle1 false start) in
  fst (deliver X (direct fine) newArticle1 false start) = Ok tt ∧
  requests (trace s') =
    [apiRequest X newArticle1 medium1 "{}";
     apiRequest X newArticle1 medium1 "{}"] ∧
  save_attempts (trace s') = [].
Proof.
  cbv zeta.
  destruct (deliver_sends_admitted_article (externals passing fine)
              (direct fine) newArticle1 false start {| channel_id := "c1" |}
              passing 1 (producer fine) 2
              (MediumChannel {| channel_id := "c1" |}) 3 ["{}"; "{}"]
              eq_refl eq_refl eq_refl eq_refl eq_refl eq_refl eq_refl eq_refl)
    as (Hr & Hreq & Ha & _).
  split_and!; [exact Hr | exact Hreq | exact Ha].
Defined.

Lemma queued_articles_keep_their_order_witness :
  let X := externals passing fine in
  let s1 := snd (sendNewArticle X queued newArticle1 passing start) in
  queue_entries
    (snd (sendNewArticle X queued newArticle2 blocked s1)) "c1"
    = [(newArticle1, passing); (newArticle2, blocked)] ∧
  queue_entries
    (snd (sendNewArticle X queued newArticle3 blocked s1)) "c3"
    = [(newArticle3, blocked)].
Proof.
  cbv zeta. split.
  - exact (queued_articles_keep_their_order (externals passing fine) queued
             newArticle1 passing newArticle2 blocked start 1 2
             eq_refl start_wf eq_refl eq_refl).
  - exact (proj2 (queued_articles_keep_their_order (externals passing fine)
             queued newArticle1 passing newArticle3 blocked start 1 2
             eq_refl start_wf eq_refl eq_refl)).
Defined.

Lemma distinct_channels_get_distinct_queues_witness :
  ∃ q1 s1 q2 s2,
    getQueueForChannel "c1" start = (Ok q1, s1) ∧
    getQueueForChannel "c3" s1 = (Ok q2, s2) ∧ q1 ≠ q2.
Proof.
  assert (Hne : "c1" ≠ "c3") by discriminate.
  destruct (distinct_channels_get_distinct_queues "c1" "c3" start start_wf Hne)
    as (q1 & s1 & q2 & s2 & H1 & H2 & Hq & _).
  by exists q1, s1, q2, s2.
Defined.

Lemma handleArticleFailure_channel_gone_witness :
  let X := externals passing (with_cache_until 0 fine) in
  is_Ok (fst (handleArticleFailure X newArticle1 invalidForm start)) = false ∧
  notifications
    (trace (snd (handleArticleFailure X newArticle1 invalidForm start))) = [].
Proof.
  cbv zeta.
  destruct (handleArticleFailure_channel_gone
              (externals passing (with_cache_until 0 fine)) newArticle1
              invalidForm start eq_refl eq_refl eq_refl)
    as (Hr & Hn & _).
  split; [exact Hr | exact Hn].
Defined.

Lemma failure_without_message_witness :
  let X := externals passing fine in
  save_attempts
    (trace (snd (handleArticleFailure X newArticle1 silentError start)))
    = [failureData newArticle1 "N/A"].
Proof.
  cbv zeta.
  destruct (failure_without_message (externals passing fine) newArticle1
              silentError start eq_refl)
    as (Ha & _).
  exact Ha.
Defined.

Lemma blocked_article_logging_witness :
  let s' := snd (deliver (externals blocked fine) queued newArticle2 false
                   start) in
  logged Warn (trace s') = [] ∧
  map msg (logged Info (trace s')) =
    ["'Second' did not pass filters and was not sent"].
Proof.
  cbv zeta.
  destruct (blocked_article_logging (externals blocked fine) queued
              newArticle2 false start {| channel_id := "c1" |} blocked 1
              eq_refl eq_refl eq_refl)
    as (Hw & Hi).
  split; [exact Hw|]. apply (f_equal (map msg)) in Hi. exact Hi.
Defined.

Lemma testScheduleRun_success_witness :
  ScheduleRun.testRuns
    {| ScheduleRun.core := 1; ScheduleRun.testRuns := true |} = true ∧
  ∃ schedules y4 y5,
    ScheduleRun.populateSchedules (ScheduleRun.demo None) y4
      = (Ok schedules, y5) ∧
    ScheduleRun.calls
      (snd (ScheduleRun.testScheduleRun (ScheduleRun.demo None) "user"
              {| ScheduleRun.run_testRuns := true |} ScheduleRun.boot))
      !! 7 =
      Some (ScheduleRun.CallAddSchedules
              {| ScheduleRun.core := 1; ScheduleRun.testRuns := true |}
              schedules).
Proof.
  destruct (testScheduleRun_success (ScheduleRun.demo None) "user"
              {| ScheduleRun.run_testRuns := true |} ScheduleRun.boot
              {| ScheduleRun.core := 1; ScheduleRun.testRuns := true |}
              eq_refl)
    as (Ht & c1 & y1 & c2 & y2 & con & y3 & y4 & schedules & y5 & built & y6
        & y7 & y8 & H1 & H2 & H3 & H4 & H5 & H6 & Hm & H7 & H8 & Hsys
        & Hcalls).
  split; [exact Ht|]. exists schedules, y4, y5. split; [exact H5|].
  rewrite Hcalls. reflexivity.
Defined.

Lemma testScheduleRun_failure_witness :
  ∃ delta,
    ScheduleRun.calls
      (snd (ScheduleRun.testScheduleRun (ScheduleRun.demo (Some 4)) "user"
              {| ScheduleRun.run_testRuns := true |} ScheduleRun.boot))
      = ScheduleRun.calls ScheduleRun.boot ++ delta ∧
    (ScheduleRun.begun delta = [] ∨
     ∃ before manager y,
       delta = before ++ [ScheduleRun.CallBeginTimers manager] ∧
       ScheduleRun.begun before = [] ∧
       fst (ScheduleRun.beginTimers (ScheduleRun.demo (Some 4)) manager y)
         = Throw ScheduleRun.refused).
Proof.
  exact (testScheduleRun_failure (ScheduleRun.demo (Some 4)) "user"
           {| ScheduleRun.run_testRuns := true |} ScheduleRun.boot
           ScheduleRun.refused eq_refl).
Defined.

Lemma testScheduleRun_database_down_witness :
  fst (ScheduleRun.testScheduleRun (ScheduleRun.demo (Some 2)) "user"
         {| ScheduleRun.run_testRuns := true |} ScheduleRun.boot)
    = Throw ScheduleRun.refused ∧
  length
    (ScheduleRun.calls
       (snd (ScheduleRun.testScheduleRun (ScheduleRun.demo (Some 2)) "user"
               {| ScheduleRun.run_testRuns := true |} ScheduleRun.boot)))
    = 3.
Proof.
  destruct (testScheduleRun_database_down (ScheduleRun.demo (Some 2)) "user"
              {| ScheduleRun.run_testRuns := true |} ScheduleRun.boot
              "user" 1 "user" 2 ScheduleRun.refused 3
              eq_refl eq_refl eq_refl)
    as (Hr & Hcalls).
  split; [exact Hr|]. rewrite Hcalls. reflexivity.
Defined.

Lemma validate_reports_every_detail_witness :
  ∃ err : JS.Error,
    ConfigSchema.validate ConfigSchema.two_fields (0, 0)%Z = Throw err ∧
    JS.includes "advanced.batchSize must be greater than 0" (JS.message err)
      = true ∧
    JS.includes "advanced.parallelRuns must be greater than 0" (JS.message err)
      = true.
Proof.
  pose proof (validate_reports_every_detail ConfigSchema.two_fields (0, 0)%Z)
    as Hv.
  simpl in Hv. destruct Hv as (err & Hthrow & _ & Hall).
  exists err. split_and!; [exact Hthrow | |].
  - apply (Hall {| ConfigSchema.detail_message :=
                     "advanced.batchSize must be greater than 0" |}).
    apply elem_of_cons. by left.
  - apply (Hall {| ConfigSchema.detail_message :=
                     "advanced.parallelRuns must be greater than 0" |}).
    apply elem_of_cons. right. apply elem_of_cons. by left.
Defined.

(** C10: when the record of a rate-limited error cannot be written, the
    message of that error reaches the log at error level, in the line of
    the recorder. *)
Lemma rate_limited_error_in_error_line :
  let X := externals passing (with_written (Throw databaseDown) fine) in
  let s' := snd (handleArticleFailure X newArticle1 rateLimited start) in
  JS.includes "limited" (JS.message rateLimited) = true ∧
  map level (log_lines (trace s')) = [Debug; LError; Debug] ∧
  map msg (logged LError (trace s')) =
    ["Failed to record article a1 delivery failure in channel c1 (error: Rate limited article)"] ∧
  logged LError (trace s') ≠ logged LError (trace start).
Proof. vm_compute. by split_and!. Qed.

Lemma handleArticleFailure_without_message_text_witness :
  let X := externals passing fine in
  is_Ok (fst (handleArticleFailure X newArticle1 (JS.Value "boom") start))
    = false ∧
  save_attempts
    (trace (snd (handleArticleFailure X newArticle1 (JS.Value "boom") start)))
    = [failureData newArticle1 "N/A"] ∧
  handleArticleFailure X newArticle1 JS.Nullish start
    = (Throw (JS.TypeError "message"), start).
Proof.
  cbv zeta.
  destruct (handleArticleFailure_without_message_text
              (externals passing fine) newArticle1 start "boom")
    as ((Hr & Ha & _) & (_ & Hs)).
  split_and!; [exact Hr | exact Ha | reflexivity].
Defined.
